(** * The example tools of the MCP server starter

    A shallow embedding of [src/examples/calculator.ts] (the [calculate_sum]
    tool) and of the resilient version of [src/examples/rest-api.ts] (the
    [fetch_user] tool with its retry loop), and the properties of both.

    - JavaScript numbers are IEEE 754 binary64 values ([spec_float] with
      [prec = 53] and [emax = 1024]).
    - JavaScript strings are [string]s; only ASCII characters are inspected
      by the code (regular expressions, [trim]), every other byte is opaque.
    - What the runtime and the validation library provide and the repository
      does not contain is a [Platform]: [Number::toString], the email test
      of the validation library and the [URL] constructor.
    - The network is an oracle [World] that answers the n-th [fetch]; the
      calls and the timers of one invocation are recorded in a log. *)

From Stdlib Require Import ZArith List String Ascii Bool Lia SpecFloat.
From Stdlib Require DecimalString.
From ExtLib Require Import Structures.Monad Structures.MonadExc.
Import ListNotations.
Import MonadNotation.

#[local] Open Scope string_scope.
#[local] Open Scope Z_scope.
#[local] Set Warnings "-register-all".

(** ** JavaScript values and string primitives *)

Module JS.

(** A JavaScript [number]. *)
Definition number : Type := spec_float.

Definition prec : Z := 53.
Definition emax : Z := 1024.

(** [a + b] on numbers: IEEE 754 addition, round to nearest even. *)
Definition add (a b : number) : number := SFadd prec emax a b.

(** [a <= b] and [a < b] on numbers (false when either is NaN). *)
Definition le (a b : number) : bool := SFleb a b.
Definition lt (a b : number) : bool := SFltb a b.

(** The number of an integer literal of the source. *)
Definition of_Z (z : Z) : number := binary_normalize prec emax z 0 false.

(** Decimal digits of an integer, as [String(n)] prints a small integer. *)
Definition Z_to_string (z : Z) : string :=
  DecimalString.NilZero.string_of_int (Z.to_int z).

Definition LF : string := String (ascii_of_nat 10) "".
Definition DQUOTE : string := String (ascii_of_nat 34) "".

(** [Array.prototype.join]. *)
Definition join (sep : string) (l : list string) : string := String.concat sep l.

(** White space that [String.prototype.trim] removes, among the ASCII
    characters: TAB, LF, VT, FF, CR and SPACE. *)
Definition is_space (c : ascii) : bool :=
  let n := nat_of_ascii c in
  ((9 <=? n) && (n <=? 13))%nat || (n =? 32)%nat.

Fixpoint trimStart (s : string) : string :=
  match s with
  | String c s' => if is_space c then trimStart s' else s
  | EmptyString => EmptyString
  end.

(** Removes the white space at the end: a character is kept when it is not
    white space or when something is kept after it. *)
Fixpoint trimEnd (s : string) : string :=
  match s with
  | String c s' =>
      match trimEnd s' with
      | EmptyString => if is_space c then EmptyString else String c EmptyString
      | t => String c t
      end
  | EmptyString => EmptyString
  end.

Definition trim (s : string) : string := trimEnd (trimStart s).

(** Number of positions of [s] at which [sub] occurs. *)
Fixpoint occurrences (sub s : string) : nat :=
  ((if String.prefix sub s then 1 else 0) +
   match s with
   | String _ s' => occurrences sub s'
   | EmptyString => 0
   end)%nat.

(** [String.prototype.includes]. *)
Definition includes (sub s : string) : bool := (0 <? occurrences sub s)%nat.

Definition is_digit (c : ascii) : bool :=
  let n := nat_of_ascii c in ((48 <=? n) && (n <=? 57))%nat.

Definition is_upper (c : ascii) : bool :=
  let n := nat_of_ascii c in ((65 <=? n) && (n <=? 90))%nat.

Definition is_lower (c : ascii) : bool :=
  let n := nat_of_ascii c in ((97 <=? n) && (n <=? 122))%nat.

Definition is_alpha (c : ascii) : bool := is_upper c || is_lower c.

Definition is_alnum (c : ascii) : bool := is_alpha c || is_digit c.

Definition is_char (x : string) (c : ascii) : bool :=
  match x with
  | String d EmptyString => Ascii.eqb c d
  | _ => false
  end.

Fixpoint string_forallb (p : ascii -> bool) (s : string) : bool :=
  match s with
  | String c s' => p c && string_forallb p s'
  | EmptyString => true
  end.

End JS.

(** The value of [response.json()]: a parsed JSON document. An object keeps
    its keys in insertion order. *)
Inductive JSONValue : Type :=
| JNull
| JBool (b : bool)
| JNum (n : JS.number)
| JStr (s : string)
| JArr (items : list JSONValue)
| JObj (fields : list (string * JSONValue)).

(** [data[key]] on a parsed object: [None] is [undefined]. *)
Fixpoint get_property (key : string) (fields : list (string * JSONValue))
  : option JSONValue :=
  match fields with
  | [] => None
  | (k, v) :: rest => if String.eqb k key then Some v else get_property key rest
  end.

(** What the runtime and the validation library supply. *)
Record Platform : Type := {
  (** [String(n)], the template-literal conversion of a number. *)
  NumberToString : JS.number -> string;
  (** the test behind [z.string().email()]. *)
  isEmail : string -> bool;
  (** [new URL(s)] does not throw, the test behind [z.string().url()]. *)
  isURL : string -> bool
}.

(** ** The validation library: issues and their default messages

    The schemas of the repository are built with zod, which comes with the
    MCP SDK (version 3). This module and the next one model the part of it
    that these schemas use. *)

Module ZodError.

(** The types [getParsedType] tells apart on a JSON document or [undefined]. *)
Inductive ZodParsedType : Type :=
| t_string | t_nan | t_number | t_boolean | t_undefined | t_null | t_array
| t_object.

Definition type_name (t : ZodParsedType) : string :=
  match t with
  | t_string => "string"
  | t_nan => "nan"
  | t_number => "number"
  | t_boolean => "boolean"
  | t_undefined => "undefined"
  | t_null => "null"
  | t_array => "array"
  | t_object => "object"
  end.

Definition getParsedType (data : option JSONValue) : ZodParsedType :=
  match data with
  | None => t_undefined
  | Some JNull => t_null
  | Some (JBool _) => t_boolean
  | Some (JNum S754_nan) => t_nan
  | Some (JNum _) => t_number
  | Some (JStr _) => t_string
  | Some (JArr _) => t_array
  | Some (JObj _) => t_object
  end.

Inductive StringValidation : Type := v_email | v_url | v_regex.

Inductive SizeType : Type := sz_string | sz_number.

(** The issue codes the schemas of this repository can raise, with their
    payload. *)
Inductive ZodIssueData : Type :=
| invalid_type (expected received : ZodParsedType)
| unrecognized_keys (keys : list string)
| invalid_string (validation : StringValidation)
| too_small (type : SizeType) (minimum : Z) (inclusive exact : bool).

(** [util.joinValues]: string values are quoted. *)
Definition joinValues (values : list string) (separator : string) : string :=
  JS.join separator (map (fun v => "'" ++ v ++ "'") values).

(** The default (English) error map. *)
Definition errorMap (data : ZodIssueData) : string :=
  match data with
  | invalid_type expected received =>
      match received with
      | t_undefined => "Required"
      | _ => "Expected " ++ type_name expected ++ ", received " ++ type_name received
      end
  | unrecognized_keys keys =>
      "Unrecognized key(s) in object: " ++ joinValues keys ", "
  | invalid_string v_email => "Invalid email"
  | invalid_string v_url => "Invalid url"
  | invalid_string v_regex => "Invalid"
  | too_small sz_string minimum inclusive exact =>
      "String must contain "
      ++ (if exact then "exactly" else if inclusive then "at least" else "over")
      ++ " " ++ JS.Z_to_string minimum ++ " character(s)"
  | too_small sz_number minimum inclusive exact =>
      "Number must be "
      ++ (if exact then "exactly equal to "
          else if inclusive then "greater than or equal to "
          else "greater than ")
      ++ JS.Z_to_string minimum
  end.

Record ZodIssue : Type := {
  issue : ZodIssueData;
  path : list string;
  message : string
}.

(** [makeIssue]: a message given with the check wins over the error map. *)
Definition makeIssue (path : list string) (data : ZodIssueData)
  (custom : option string) : ZodIssue :=
  {| issue := data;
     path := path;
     message := match custom with Some m => m | None => errorMap data end |}.

End ZodError.

(** What a [throw] or a rejected promise carries, as the [instanceof] tests
    of the handler classify it. A [ZodError] is also an [Error]; it is tested
    first. *)
Inductive thrown : Type :=
| ZodError (errors : list ZodError.ZodIssue)
| Error (message : string)
| NonError (value : JSONValue).

(** ** The validation library: schemas *)

Module Zod.
Import ZodError.

(** The outcome of [_parse]: the issues added, and the value unless the
    parse was aborted ([INVALID]). *)
Definition ParseReturn (A : Type) : Type := (list ZodIssue * option A)%type.

(** A schema, run at a path on a value ([None] is [undefined]). *)
Definition ZodType (A : Type) : Type :=
  list string -> option JSONValue -> ParseReturn A.

(** [z.string()] with its checks, in the order they were added. *)
Inductive ZodStringCheck : Type :=
| check_min (value : Z) (message : option string)
| check_email (message : option string)
| check_url (message : option string)
| check_regex (regex : string -> bool) (message : option string).

Definition ZodString : Type := list ZodStringCheck.

Definition string : ZodString := [].
Definition min (minLength : Z) (s : ZodString) : ZodString :=
  (s ++ [check_min minLength None])%list.
Definition email (s : ZodString) : ZodString := (s ++ [check_email None])%list.
Definition url (s : ZodString) : ZodString := (s ++ [check_url None])%list.
Definition regex (re : String.string -> bool) (message : String.string)
  (s : ZodString) : ZodString := (s ++ [check_regex re (Some message)])%list.

(** [z.number()] with its checks; [positive()] is the check [min] with value
    0, exclusive. *)
Inductive ZodNumberCheck : Type :=
| check_number_min (value : Z) (inclusive : bool) (message : option String.string).

Definition ZodNumber : Type := list ZodNumberCheck.

Definition number : ZodNumber := [].
Definition positive (n : ZodNumber) : ZodNumber :=
  (n ++ [check_number_min 0 false None])%list.

Definition number_check (path : list String.string) (data : JS.number)
  (check : ZodNumberCheck) : list ZodIssue :=
  match check with
  | check_number_min value inclusive message =>
      let tooSmall :=
        if inclusive then JS.lt data (JS.of_Z value)
        else JS.le data (JS.of_Z value) in
      if tooSmall
      then [makeIssue path (too_small sz_number value inclusive false) message]
      else []
  end.

(** [ZodNumber._parse]. *)
Definition parse_number (n : ZodNumber) : ZodType JS.number :=
  fun path input =>
    match getParsedType input, input with
    | t_number, Some (JNum data) =>
        (flat_map (number_check path data) n, Some data)
    | received, _ =>
        ([makeIssue path (invalid_type t_number received) None], None)
    end.

Section Parse.
Variable P : Platform.

Definition string_check (path : list String.string) (data : String.string)
  (check : ZodStringCheck) : list ZodIssue :=
  match check with
  | check_min value message =>
      if Z.of_nat (String.length data) <? value
      then [makeIssue path (too_small sz_string value true false) message]
      else []
  | check_email message =>
      if isEmail P data then []
      else [makeIssue path (invalid_string v_email) message]
  | check_url message =>
      if isURL P data then []
      else [makeIssue path (invalid_string v_url) message]
  | check_regex re message =>
      if re data then []
      else [makeIssue path (invalid_string v_regex) message]
  end.

(** [ZodString._parse]. *)
Definition parse_string (s : ZodString) : ZodType String.string :=
  fun path input =>
    match input with
    | Some (JStr data) => (flat_map (string_check path data) s, Some data)
    | _ => ([makeIssue path (invalid_type t_string (getParsedType input)) None],
            None)
    end.

End Parse.

(** The shape of [z.object({...})]: its keys in declaration order, and the
    parse of the value under each key, which builds the typed record. Every
    key is parsed, also after an issue. *)
Record Shape (A : Type) : Type := {
  shape_keys : list String.string;
  shape_parse : list (String.string * JSONValue) -> list String.string -> ParseReturn A
}.
Arguments shape_keys {A} _.
Arguments shape_parse {A} _ _ _.

Definition shape_of {A : Type} (build : A) : Shape A :=
  {| shape_keys := [];
     shape_parse := fun _ _ => ([], Some build) |}.

Definition shape_field {A B : Type} (sh : Shape (A -> B)) (key : String.string)
  (schema : ZodType A) : Shape B :=
  {| shape_keys := (shape_keys sh ++ [key])%list;
     shape_parse := fun data path =>
       let '(issues1, f) := shape_parse sh data path in
       let '(issues2, a) := schema (path ++ [key])%list (get_property key data) in
       ((issues1 ++ issues2)%list,
        match f, a with
        | Some f, Some a => Some (f a)
        | _, _ => None
        end) |}.

(** [shape_field] with the shape last, to chain the keys of a shape. *)
Definition field {A B : Type} (key : String.string) (schema : ZodType A)
  (sh : Shape (A -> B)) : Shape B := shape_field sh key schema.

Inductive UnknownKeysParam : Type := strip | strict.

(** [ZodObject._parse] for [unknownKeys] "strip" (the default) and "strict":
    the issues of the keys of the shape in order, then, for a strict object,
    one [unrecognized_keys] issue listing the other keys of the value. *)
Definition object {A : Type} (unknownKeys : UnknownKeysParam) (sh : Shape A)
  : ZodType A :=
  fun path input =>
    match input with
    | Some (JObj data) =>
        let extraKeys :=
          match unknownKeys with
          | strip => []
          | strict =>
              filter (fun key => negb (existsb (String.eqb key) (shape_keys sh)))
                     (map fst data)
          end in
        let '(issues, value) := shape_parse sh data path in
        match extraKeys with
        | [] => (issues, value)
        | _ :: _ =>
            ((issues ++ [makeIssue path (unrecognized_keys extraKeys) None])%list,
             value)
        end
    | _ => ([makeIssue path (invalid_type t_object (getParsedType input)) None],
            None)
    end.

(** [schema.parse(data)]: the value when no issue was added, else a thrown
    [ZodError] with the issues in the order they were added. *)
Definition parse {A : Type} (schema : ZodType A) (data : JSONValue)
  : thrown + A :=
  match schema [] (Some data) with
  | ([], Some value) => inr value
  | ([], None) => inl (Error "Validation failed but no issues detected.")
  | (issues, _) => inl (ZodError issues)
  end.

End Zod.

(** ** The result of a tool *)

Record ContentItem : Type := { type : string; text : string }.

(** [isError] is optional: [None] is a result without the key. *)
Record ToolResult : Type := {
  content : list ContentItem;
  isError : option bool
}.

(** Reverse application, for chained method calls. *)
Notation "x |> f" := (f x) (at level 68, left associativity, only parsing).

(** ** calculator.ts *)

Module Calculator.

Record Params : Type := { a : JS.number; b : JS.number }.

Section Tool.
Variable P : Platform.

(** The callback registered as [calculate_sum]. *)
Definition calculate_sum (params : Params) : ToolResult :=
  {| content := [ {| type := "text";
                     text := NumberToString P (JS.add (a params) (b params)) |} ];
     isError := None |}.

End Tool.
End Calculator.

(** ** rest-api.ts: schemas and helpers *)

Module RestApi.

Definition MAX_RETRIES : nat := 3.
Definition INITIAL_RETRY_DELAY : Z := 1000.

Module Address.
Record t : Type := {
  street : string;
  suite : string;
  city : string;
  zipcode : string
}.
End Address.

Module Company.
Record t : Type := {
  name : string;
  catchPhrase : string;
  bs : string
}.
End Company.

Record UserData : Type := {
  id : JS.number;
  name : string;
  username : string;
  email : string;
  address : Address.t;
  phone : string;
  website : string;
  company : Company.t
}.

(** Consumes exactly [n] decimal digits. *)
Fixpoint digits (n : nat) (s : string) : option string :=
  match n with
  | O => Some s
  | S k =>
      match s with
      | String c s' => if JS.is_digit c then digits k s' else None
      | EmptyString => None
      end
  end.

(** The regular expression [^\d{5}(-\d{4})?$]. *)
Definition zipcode_regex (s : string) : bool :=
  match digits 5 s with
  | Some EmptyString => true
  | Some (String "-"%char rest) =>
      match digits 4 rest with
      | Some EmptyString => true
      | _ => false
      end
  | _ => false
  end.

(** The character class [[0-9-().+ ]]. *)
Definition phone_char (c : ascii) : bool :=
  JS.is_digit c
  || JS.is_char "-" c || JS.is_char "(" c || JS.is_char ")" c
  || JS.is_char "." c || JS.is_char "+" c || JS.is_char " " c.

(** The regular expression [^[0-9-().+ ]+$]. *)
Definition phone_regex (s : string) : bool :=
  match s with
  | EmptyString => false
  | String _ _ => JS.string_forallb phone_char s
  end.

(** [getRetryDelay]: the delay in milliseconds before the retry that follows
    attempt [attempt]. The source computes
    [INITIAL_RETRY_DELAY * Math.pow(2, attempt)] on numbers; the product is
    this integer as long as it is below 2^1024, so for every attempt the loop
    makes. *)
Definition getRetryDelay (attempt : nat) : Z :=
  INITIAL_RETRY_DELAY * 2 ^ Z.of_nat attempt.

(** The template literal of [formatUserData], before [trim()]. *)
Definition formatUserData_template (userData : UserData) : string :=
  JS.LF ++
  "User Profile:" ++ JS.LF ++
  "  Name: " ++ name userData ++ JS.LF ++
  "  Username: " ++ username userData ++ JS.LF ++
  "  Email: " ++ email userData ++ JS.LF ++
  "  Address: " ++ Address.street (address userData) ++ ", "
                ++ Address.suite (address userData) ++ JS.LF ++
  "           " ++ Address.city (address userData) ++ ", "
                ++ Address.zipcode (address userData) ++ JS.LF ++
  "  Phone: " ++ phone userData ++ JS.LF ++
  "  Website: " ++ website userData ++ JS.LF ++
  "  Company: " ++ Company.name (company userData) ++ JS.LF ++
  "          " ++ JS.DQUOTE ++ Company.catchPhrase (company userData)
               ++ JS.DQUOTE ++ JS.LF.

Definition formatUserData (userData : UserData) : string :=
  JS.trim (formatUserData_template userData).

Section Schemas.
Variable P : Platform.

Definition AddressSchema : Zod.ZodType Address.t :=
  Zod.object Zod.strip
    (Zod.shape_of Address.Build_t
     |> Zod.field "street" (Zod.parse_string P Zod.string)
     |> Zod.field "suite" (Zod.parse_string P Zod.string)
     |> Zod.field "city" (Zod.parse_string P Zod.string)
     |> Zod.field "zipcode"
          (Zod.parse_string P
             (Zod.string |> Zod.regex zipcode_regex "Invalid zipcode format"))).

Definition CompanySchema : Zod.ZodType Company.t :=
  Zod.object Zod.strip
    (Zod.shape_of Company.Build_t
     |> Zod.field "name" (Zod.parse_string P Zod.string)
     |> Zod.field "catchPhrase" (Zod.parse_string P Zod.string)
     |> Zod.field "bs" (Zod.parse_string P Zod.string)).

(** [UserDataSchema]: a strict object. *)
Definition UserDataSchema : Zod.ZodType UserData :=
  Zod.object Zod.strict
    (Zod.shape_of Build_UserData
     |> Zod.field "id" (Zod.parse_number (Zod.number |> Zod.positive))
     |> Zod.field "name" (Zod.parse_string P (Zod.string |> Zod.min 1))
     |> Zod.field "username" (Zod.parse_string P (Zod.string |> Zod.min 1))
     |> Zod.field "email" (Zod.parse_string P (Zod.string |> Zod.email))
     |> Zod.field "address" AddressSchema
     |> Zod.field "phone"
          (Zod.parse_string P
             (Zod.string |> Zod.regex phone_regex "Invalid phone format"))
     |> Zod.field "website" (Zod.parse_string P (Zod.string |> Zod.url))
     |> Zod.field "company" CompanySchema).

End Schemas.

(** ** rest-api.ts: the network and the effects of one invocation *)

(** The fields of a [fetch] response that the handler reads; [json] is the
    outcome of [await response.json()]. *)
Record Response : Type := {
  status : Z;
  statusText : string;
  ok : bool;
  json : thrown + JSONValue
}.

Inductive FetchOutcome : Type :=
| Rejected (reason : thrown)
| Resolved (response : Response).

(** The network: the outcome of the n-th call of [fetch], counted from 0. *)
Definition World : Type := nat -> FetchOutcome.

Inductive Event : Type :=
| Fetch (url : string) (headers : list (string * string))
| SetTimeout (ms : Z).

(** The calls made so far and the log of the effects, oldest first. *)
Record Run : Type := { calls : nat; log : list Event }.

Definition start : Run := {| calls := O; log := [] |}.

(** An asynchronous computation: it reads the network, extends the run and
    completes normally ([inr]) or by a throw ([inl]). *)
Definition M (A : Type) : Type := World -> Run -> (thrown + A) * Run.

#[local] Instance Monad_M : Monad M := {
  ret := fun _ a => fun _ s => (inr a, s);
  bind := fun _ _ m f => fun w s =>
    match m w s with
    | (inl e, s') => (inl e, s')
    | (inr a, s') => f a w s'
    end
}.

#[local] Instance MonadExc_M : MonadExc thrown M := {
  raise := fun _ e => fun _ s => (inl e, s);
  catch := fun _ m handler => fun w s =>
    match m w s with
    | (inl e, s') => handler e w s'
    | (inr a, s') => (inr a, s')
    end
}.

#[local] Open Scope monad_scope.

(** [await fetch(url, { headers })]. *)
Definition fetch (url : string) (headers : list (string * string)) : M Response :=
  fun w s =>
    let s' := {| calls := S (calls s); log := (log s ++ [Fetch url headers])%list |} in
    match w (calls s) with
    | Rejected reason => (inl reason, s')
    | Resolved response => (inr response, s')
    end.

(** [await new Promise(resolve => setTimeout(resolve, ms))]. *)
Definition sleep (ms : Z) : M unit :=
  fun _ s => (inr tt, {| calls := calls s; log := (log s ++ [SetTimeout ms])%list |}).

(** A value or a throw, as a computation. *)
Definition completion {A : Type} (c : thrown + A) : M A :=
  match c with
  | inl e => raise e
  | inr a => ret a
  end.

(** ** rest-api.ts: the [fetch_user] handler *)

Record Params : Type := { userId : JS.number }.

(** How one iteration of the retry loop ends: by a [return] of the handler,
    or by going on to the next iteration ([continue], or the end of the
    [catch] block). *)
Inductive Step : Type :=
| Return (result : ToolResult)
| Continue.

Definition not_found_text (id : string) : string :=
  "User with ID " ++ id ++ " not found".

Section Handler.
Variable P : Platform.
Variable params : Params.

(** The [try] block of the loop body. *)
Definition attempt_try (attempt : nat) : M Step :=
  response <- fetch
    ("https://jsonplaceholder.typicode.com/users/" ++ NumberToString P (userId params))
    [("User-Agent", "MCP-Example-Server/1.0"); ("Accept", "application/json")] ;;
  if status response =? 404 then
    ret (Return
      {| content := [ {| type := "text";
                         text := not_found_text (NumberToString P (userId params)) |} ];
         isError := Some true |})
  else if status response =? 429 then
    if (attempt =? MAX_RETRIES - 1)%nat then
      ret (Return
        {| content := [ {| type := "text";
                           text := "Rate limit exceeded. Please try again later." |} ];
           isError := Some true |})
    else
      sleep (getRetryDelay attempt) ;;
      ret Continue
  else if negb (ok response) then
    raise (Error ("HTTP " ++ JS.Z_to_string (status response) ++ ": "
                  ++ statusText response))
  else
    rawData <- completion (json response) ;;
    userData <- completion (Zod.parse (UserDataSchema P) rawData) ;;
    ret (Return
      {| content := [ {| type := "text"; text := formatUserData userData |} ];
         isError := None |}).

(** The [catch] block of the loop body. *)
Definition attempt_catch (attempt : nat) (error : thrown) : M Step :=
  if (attempt =? MAX_RETRIES - 1)%nat then
    match error with
    | ZodError errors =>
        ret (Return
          {| content := [ {| type := "text";
                             text := "Invalid API response format: "
                                     ++ JS.join ", " (map ZodError.message errors) |} ];
             isError := Some true |})
    | Error message =>
        ret (Return
          {| content := [ {| type := "text";
                             text := "Failed to fetch user data: " ++ message |} ];
             isError := Some true |})
    | NonError _ =>
        ret (Return
          {| content := [ {| type := "text";
                             text := "An unknown error occurred while fetching user data" |} ];
             isError := Some true |})
    end
  else
    sleep (getRetryDelay attempt) ;;
    ret Continue.

(** The body of the loop: [try { ... } catch (error) { ... }]. *)
Definition iteration (attempt : nat) : M Step :=
  catch (attempt_try attempt) (attempt_catch attempt).

(** The loop [for (let attempt = 0; attempt < MAX_RETRIES; attempt++)], by
    recursion on [remaining = MAX_RETRIES - attempt]: the loop test fails
    exactly when [remaining] is 0. [None] is the exit of the loop without a
    [return]. *)
Fixpoint retry_loop (remaining attempt : nat) : M (option ToolResult) :=
  match remaining with
  | O => ret None
  | S remaining' =>
      step <- iteration attempt ;;
      match step with
      | Return result => ret (Some result)
      | Continue => retry_loop remaining' (S attempt)
      end
  end.

(** The result after the loop. *)
Definition exhausted : ToolResult :=
  {| content := [ {| type := "text";
                     text := "Failed to fetch user data after all retry attempts" |} ];
     isError := Some true |}.

(** The callback registered as [fetch_user]. *)
Definition fetch_user : M ToolResult :=
  outcome <- retry_loop (MAX_RETRIES - 0) 0 ;;
  match outcome with
  | Some result => ret result
  | None => ret exhausted
  end.

End Handler.

End RestApi.

(** ** A platform to run the model on concrete inputs

    The properties below hold for every [Platform]. To evaluate the model on
    concrete inputs, [Sample.platform] fixes one: it agrees with the runtime
    on the integers of magnitude below 2^53, on NaN and on the infinities,
    tests an email address with the regular expression of the validation
    library, and accepts as URLs only some strings that the [URL] constructor
    accepts. *)

Module Sample.

(** The integer a number is, when it is one. *)
Definition integer_value (n : JS.number) : option Z :=
  match n with
  | S754_zero _ => Some 0
  | S754_finite s m e =>
      let z := if s then Z.neg m else Z.pos m in
      match e with
      | Z.neg k => if z mod 2 ^ Z.pos k =? 0 then Some (z / 2 ^ Z.pos k) else None
      | _ => Some (z * 2 ^ e)
      end
  | _ => None
  end.

(** [Number::toString] on NaN, the infinities, the zeros and the integers of
    magnitude below 2^53; any other number prints as ["?"]. *)
Definition NumberToString (n : JS.number) : string :=
  match n with
  | S754_nan => "NaN"
  | S754_infinity false => "Infinity"
  | S754_infinity true => "-Infinity"
  | _ =>
      match integer_value n with
      | Some z => if Z.abs z <? 2 ^ 53 then JS.Z_to_string z else "?"
      | None => "?"
      end
  end.

(** The pieces of [s] between the occurrences of [sep]. *)
Fixpoint split (sep : ascii) (s : string) : list string :=
  match s with
  | EmptyString => [EmptyString]
  | String c s' =>
      if Ascii.eqb c sep then EmptyString :: split sep s'
      else match split sep s' with
           | piece :: pieces => String c piece :: pieces
           | [] => [String c EmptyString]
           end
  end.

Fixpoint last_char (s : string) : option ascii :=
  match s with
  | EmptyString => None
  | String c EmptyString => Some c
  | String _ s' => last_char s'
  end.

Definition local_char (c : ascii) : bool :=
  JS.is_alnum c || JS.is_char "_" c || JS.is_char "'" c || JS.is_char "+" c
  || JS.is_char "-" c || JS.is_char "." c.

Definition local_last_char (c : ascii) : bool :=
  JS.is_alnum c || JS.is_char "_" c || JS.is_char "+" c || JS.is_char "-" c.

(** [[A-Z0-9][A-Z0-9\-]*], case-insensitive. *)
Definition domain_label (s : string) : bool :=
  match s with
  | String c s' =>
      JS.is_alnum c
      && JS.string_forallb (fun d => JS.is_alnum d || JS.is_char "-" d) s'
  | EmptyString => false
  end.

(** [[A-Z]{2,}], case-insensitive. *)
Definition top_level (s : string) : bool :=
  (2 <=? String.length s)%nat && JS.string_forallb JS.is_alpha s.

Fixpoint domain_labels (labels : list string) : bool :=
  match labels with
  | [] => false
  | [_] => false
  | [l; tld] => domain_label l && top_level tld
  | l :: rest => domain_label l && domain_labels rest
  end.

(** The email regular expression of the validation library (3.23), which is
    case-insensitive: no dot at the start and no two dots in a row; before
    the [@], characters of [[A-Z0-9_'+-.]] of which the last is in
    [[A-Z0-9_+-]]; after it, one or more labels each followed by a dot, then
    two or more letters. *)
Definition isEmail (s : string) : bool :=
  negb (String.prefix "." s)
  && negb (JS.includes ".." s)
  && match split "@" s with
     | [local; domain] =>
         JS.string_forallb local_char local
         && match last_char local with
            | Some c => local_last_char c
            | None => false
            end
         && domain_labels (split "." domain)
     | _ => false
     end.

Definition host_label (s : string) : bool :=
  match s with
  | String c s' =>
      JS.is_lower c
      && JS.string_forallb (fun d => JS.is_lower d || JS.is_digit d) s'
  | EmptyString => false
  end.

Definition strip_prefix (p s : string) : option string :=
  if String.prefix p s
  then Some (String.substring (String.length p) (String.length s - String.length p) s)
  else None.

(** Accepts [http://host] and [https://host] where [host] is made of labels
    of lower-case letters and digits that start with a letter, separated by
    dots; the [URL] constructor accepts each of them. *)
Definition isURL (s : string) : bool :=
  let host_ok rest := forallb host_label (split "." rest) in
  match strip_prefix "https://" s, strip_prefix "http://" s with
  | Some rest, _ => host_ok rest
  | None, Some rest => host_ok rest
  | None, None => false
  end.

Definition platform : Platform :=
  Build_Platform NumberToString isEmail isURL.

End Sample.

(** ** Vocabulary of the properties *)

(** A result with one text item. *)
Definition text_result (t : string) (error : option bool) : ToolResult :=
  {| content := [ {| type := "text"; text := t |} ]; isError := error |}.

Module Outcome.

(** How one attempt ends, seen from the retry loop: the record is absent
    (404), the caller is rate-limited (429), a failure was raised (by
    [fetch], by a status that is not OK, by [json()] or by the validation),
    or a valid record arrived. *)
Inductive t : Type :=
| NotFound
| RateLimited
| Failed (error : thrown)
| Success (userData : RestApi.UserData).

End Outcome.

Section Vocabulary.
Variable P : Platform.
Variable params : RestApi.Params.

(** The one network call an attempt makes. *)
Definition request : RestApi.Event :=
  RestApi.Fetch
    ("https://jsonplaceholder.typicode.com/users/"
     ++ NumberToString P (RestApi.userId params))
    [("User-Agent", "MCP-Example-Server/1.0"); ("Accept", "application/json")].

(** The class of an answer of the network. *)
Definition attempt_outcome (o : RestApi.FetchOutcome) : Outcome.t :=
  match o with
  | RestApi.Rejected reason => Outcome.Failed reason
  | RestApi.Resolved response =>
      if RestApi.status response =? 404 then Outcome.NotFound
      else if RestApi.status response =? 429 then Outcome.RateLimited
      else if negb (RestApi.ok response) then
        Outcome.Failed
          (Error ("HTTP " ++ JS.Z_to_string (RestApi.status response) ++ ": "
                  ++ RestApi.statusText response))
      else
        match RestApi.json response with
        | inl e => Outcome.Failed e
        | inr rawData =>
            match Zod.parse (RestApi.UserDataSchema P) rawData with
            | inl e => Outcome.Failed e
            | inr userData => Outcome.Success userData
            end
        end
  end.

(** The text reported for a failure raised on the last attempt. *)
Definition failure_text (error : thrown) : string :=
  match error with
  | ZodError errors =>
      "Invalid API response format: "
      ++ JS.join ", " (map ZodError.message errors)
  | Error message => "Failed to fetch user data: " ++ message
  | NonError _ => "An unknown error occurred while fetching user data"
  end.

(** What one iteration of the loop does, by the class of the answer. *)
Definition iteration_spec (attempt : nat) (o : RestApi.FetchOutcome)
  (s : RestApi.Run) : (thrown + RestApi.Step) * RestApi.Run :=
  let called :=
    {| RestApi.calls := S (RestApi.calls s);
       RestApi.log := (RestApi.log s ++ [request])%list |} in
  let waited :=
    {| RestApi.calls := S (RestApi.calls s);
       RestApi.log :=
         ((RestApi.log s ++ [request])
          ++ [RestApi.SetTimeout (RestApi.getRetryDelay attempt)])%list |} in
  let last := (attempt =? RestApi.MAX_RETRIES - 1)%nat in
  match attempt_outcome o with
  | Outcome.NotFound =>
      (inr (RestApi.Return
              (text_result
                 (RestApi.not_found_text (NumberToString P (RestApi.userId params)))
                 (Some true))),
       called)
  | Outcome.RateLimited =>
      if last
      then (inr (RestApi.Return
                   (text_result "Rate limit exceeded. Please try again later."
                                (Some true))),
            called)
      else (inr RestApi.Continue, waited)
  | Outcome.Failed error =>
      if last
      then (inr (RestApi.Return (text_result (failure_text error) (Some true))),
            called)
      else (inr RestApi.Continue, waited)
  | Outcome.Success userData =>
      (inr (RestApi.Return (text_result (RestApi.formatUserData userData) None)),
       called)
  end.

(** The answer is an OK response whose body fails the validation with the
    issues [errors]. *)
Definition invalid_body (o : RestApi.FetchOutcome)
  (errors : list ZodError.ZodIssue) : Prop :=
  exists response rawData,
    o = RestApi.Resolved response
    /\ RestApi.status response <> 404
    /\ RestApi.status response <> 429
    /\ RestApi.ok response = true
    /\ RestApi.json response = inr rawData
    /\ Zod.parse (RestApi.UserDataSchema P) rawData = inl (ZodError errors).

(** The answer is an OK response whose body validates as [userData]. *)
Definition valid_body (o : RestApi.FetchOutcome)
  (userData : RestApi.UserData) : Prop :=
  exists response rawData,
    o = RestApi.Resolved response
    /\ RestApi.status response <> 404
    /\ RestApi.status response <> 429
    /\ RestApi.ok response = true
    /\ RestApi.json response = inr rawData
    /\ Zod.parse (RestApi.UserDataSchema P) rawData = inr userData.

(** An answer after which the loop goes on when attempts remain. *)
Definition retried (o : RestApi.FetchOutcome) : Prop :=
  attempt_outcome o = Outcome.RateLimited
  \/ exists e, attempt_outcome o = Outcome.Failed e.

(** The answer is a rate-limited response (HTTP 429). *)
Definition rate_limited (o : RestApi.FetchOutcome) : Prop :=
  exists response, o = RestApi.Resolved response /\ RestApi.status response = 429.

(** The answer is a response that reports the record as absent (HTTP 404). *)
Definition absent (o : RestApi.FetchOutcome) : Prop :=
  exists response, o = RestApi.Resolved response /\ RestApi.status response = 404.

End Vocabulary.

(** The object has the string [value] under [key]. *)
Definition has_string (fields : list (string * JSONValue)) (key value : string)
  : Prop :=
  get_property key fields = Some (JStr value).

(** ** Concrete inputs *)

Module Examples.

Definition one : JS.number := JS.of_Z 1.

Definition params : RestApi.Params := {| RestApi.userId := one |}.

Definition address_json : JSONValue :=
  JObj [ ("street", JStr "Kulas Light"); ("suite", JStr "Apt. 556");
         ("city", JStr "Gwenborough"); ("zipcode", JStr "92998-3874");
         ("geo", JObj [ ("lat", JStr "-37.3159"); ("lng", JStr "81.1496") ]) ].

Definition company_json : JSONValue :=
  JObj [ ("name", JStr "Romaguera-Crona");
         ("catchPhrase", JStr "Multi-layered client-server neural-net");
         ("bs", JStr "harness real-time e-markets") ].

(** A body that validates; the name, the email and the city each occur once
    in its formatted text. *)
Definition user_json : JSONValue :=
  JObj [ ("id", JNum one); ("name", JStr "Leanne Graham");
         ("username", JStr "Bret"); ("email", JStr "Sincere@april.biz");
         ("address", address_json); ("phone", JStr "1-770-736-8031");
         ("website", JStr "https://hildegard.org"); ("company", company_json) ].


(** The body [user_json] without its [email]. *)
Definition no_email_json : JSONValue :=
  JObj [ ("id", JNum one); ("name", JStr "Leanne Graham");
         ("username", JStr "Bret");
         ("address", address_json); ("phone", JStr "1-770-736-8031");
         ("website", JStr "https://hildegard.org"); ("company", company_json) ].

Definition address : RestApi.Address.t :=
  {| RestApi.Address.street := "Kulas Light";
     RestApi.Address.suite := "Apt. 556";
     RestApi.Address.city := "Gwenborough";
     RestApi.Address.zipcode := "92998-3874" |}.

Definition company : RestApi.Company.t :=
  {| RestApi.Company.name := "Romaguera-Crona";
     RestApi.Company.catchPhrase := "Multi-layered client-server neural-net";
     RestApi.Company.bs := "harness real-time e-markets" |}.

(** The record of [user_json]. *)
Definition user : RestApi.UserData :=
  {| RestApi.id := one; RestApi.name := "Leanne Graham";
     RestApi.username := "Bret"; RestApi.email := "Sincere@april.biz";
     RestApi.address := address; RestApi.phone := "1-770-736-8031";
     RestApi.website := "https://hildegard.org"; RestApi.company := company |}.


(** The issue of a missing [email]. *)
Definition email_required : ZodError.ZodIssue :=
  {| ZodError.issue := ZodError.invalid_type ZodError.t_string ZodError.t_undefined;
     ZodError.path := ["email"];
     ZodError.message := "Required" |}.

(** A failure of the transport whose message names an address of the
    network of the server. *)
Definition refused : thrown :=
  Error "request to https://jsonplaceholder.typicode.com/users/1 failed, reason: connect ECONNREFUSED 10.0.0.5:443".

Definition ok_response (body : JSONValue) : RestApi.Response :=
  {| RestApi.status := 200; RestApi.statusText := "OK"; RestApi.ok := true;
     RestApi.json := inr body |}.

Definition status_response (code : Z) (reason : string) : RestApi.Response :=
  {| RestApi.status := code; RestApi.statusText := reason; RestApi.ok := false;
     RestApi.json := inr JNull |}.

(** Every call gets the same answer. *)
Definition always (o : RestApi.FetchOutcome) : RestApi.World := fun _ => o.

(** The calls get the answers of the list in turn, then [o]. *)
Definition answers (l : list RestApi.FetchOutcome) (o : RestApi.FetchOutcome)
  : RestApi.World := fun n => nth n l o.

Definition too_many : RestApi.FetchOutcome :=
  RestApi.Resolved (status_response 429 "Too Many Requests").

Definition run (w : RestApi.World) : (thrown + ToolResult) * RestApi.Run :=
  RestApi.fetch_user Sample.platform params w RestApi.start.

End Examples.

(** ** rest-api.ts, first version: one attempt, no retry *)

Module RestApiSimple.

#[local] Existing Instance RestApi.Monad_M.
#[local] Existing Instance RestApi.MonadExc_M.
#[local] Open Scope monad_scope.

Section Tool.
Variable P : Platform.
(** [JSON.stringify(userData, null, 2)]. *)
Variable stringify : RestApi.UserData -> string.
(** [error.message] of a [ZodError]: its issues, serialized. *)
Variable ZodError_message : list ZodError.ZodIssue -> string.

Definition AddressSchema : Zod.ZodType RestApi.Address.t :=
  Zod.object Zod.strip
    (Zod.shape_of RestApi.Address.Build_t
     |> Zod.field "street" (Zod.parse_string P Zod.string)
     |> Zod.field "suite" (Zod.parse_string P Zod.string)
     |> Zod.field "city" (Zod.parse_string P Zod.string)
     |> Zod.field "zipcode" (Zod.parse_string P Zod.string)).

Definition CompanySchema : Zod.ZodType RestApi.Company.t :=
  Zod.object Zod.strip
    (Zod.shape_of RestApi.Company.Build_t
     |> Zod.field "name" (Zod.parse_string P Zod.string)
     |> Zod.field "catchPhrase" (Zod.parse_string P Zod.string)
     |> Zod.field "bs" (Zod.parse_string P Zod.string)).

(** [UserDataSchema] of the first version: types only, unknown keys
    stripped. *)
Definition UserDataSchema : Zod.ZodType RestApi.UserData :=
  Zod.object Zod.strip
    (Zod.shape_of RestApi.Build_UserData
     |> Zod.field "id" (Zod.parse_number Zod.number)
     |> Zod.field "name" (Zod.parse_string P Zod.string)
     |> Zod.field "username" (Zod.parse_string P Zod.string)
     |> Zod.field "email" (Zod.parse_string P Zod.string)
     |> Zod.field "address" AddressSchema
     |> Zod.field "phone" (Zod.parse_string P Zod.string)
     |> Zod.field "website" (Zod.parse_string P Zod.string)
     |> Zod.field "company" CompanySchema).

(** [FetchUserSchema] of the first version: a positive number. *)
Definition FetchUserSchema : Zod.ZodType RestApi.Params :=
  Zod.object Zod.strip
    (Zod.shape_of RestApi.Build_Params
     |> Zod.field "userId" (Zod.parse_number (Zod.number |> Zod.positive))).

(** The one network call of the callback: no headers. *)
Definition request (params : RestApi.Params) : RestApi.Event :=
  RestApi.Fetch
    ("https://jsonplaceholder.typicode.com/users/"
     ++ NumberToString P (RestApi.userId params)) [].

(** The [try] block of the callback. *)
Definition fetch_user_try (params : RestApi.Params) : RestApi.M ToolResult :=
  response <- RestApi.fetch
    ("https://jsonplaceholder.typicode.com/users/"
     ++ NumberToString P (RestApi.userId params)) [] ;;
  if negb (RestApi.ok response) then
    if RestApi.status response =? 404 then
      ret {| content := [ {| type := "text";
                             text := "User with ID "
                                     ++ NumberToString P (RestApi.userId params)
                                     ++ " not found" |} ];
             isError := Some true |}
    else
      ret {| content := [ {| type := "text";
                             text := "API request failed with status "
                                     ++ JS.Z_to_string (RestApi.status response) |} ];
             isError := Some true |}
  else
    rawData <- RestApi.completion (RestApi.json response) ;;
    userData <- RestApi.completion (Zod.parse UserDataSchema rawData) ;;
    ret {| content := [ {| type := "text"; text := stringify userData |} ];
           isError := None |}.

(** The [catch] block of the callback. *)
Definition fetch_user_catch (error : thrown) : RestApi.M ToolResult :=
  match error with
  | ZodError errors =>
      ret {| content := [ {| type := "text";
                             text := "Invalid API response format: "
                                     ++ ZodError_message errors |} ];
             isError := Some true |}
  | Error message =>
      ret {| content := [ {| type := "text";
                             text := "Failed to fetch user data: " ++ message |} ];
             isError := Some true |}
  | NonError _ =>
      ret {| content := [ {| type := "text";
                             text := "An unknown error occurred" |} ];
             isError := Some true |}
  end.

(** The callback registered as [fetch_user] by the first version. *)
Definition fetch_user (params : RestApi.Params) : RestApi.M ToolResult :=
  catch (fetch_user_try params) fetch_user_catch.

End Tool.
End RestApiSimple.

(** ** calculator.ts: the schema of the parameters *)

Module CalculatorSchema.

(** [CalculatorSchema]: two numbers; as the shape of a tool, an object whose
    unknown keys are stripped. *)
Definition CalculatorSchema : Zod.ZodType Calculator.Params :=
  Zod.object Zod.strip
    (Zod.shape_of Calculator.Build_Params
     |> Zod.field "a" (Zod.parse_number Zod.number)
     |> Zod.field "b" (Zod.parse_number Zod.number)).

End CalculatorSchema.

(** ** smithery.yaml: the start command *)

Module Smithery.

(** The configuration object, as [configSchema] declares it: every property
    is optional. *)
Record CalculatorConfig : Type := { calculator_enabled : option bool }.

Record RestApiConfig : Type := {
  restApi_enabled : option bool;
  maxRetries : option JS.number
}.

Record Config : Type := {
  calculator : option CalculatorConfig;
  restApi : option RestApiConfig
}.

Record StartCommand : Type := {
  command : string;
  args : list string;
  env : list (string * string)
}.

(** [b.toString()] on a boolean. *)
Definition Boolean_toString (b : bool) : string :=
  if b then "true" else "false".

(** [x?.f]: [undefined] when [x] is, else the property. *)
Definition optional {A B : Type} (x : option A) (f : A -> option B) : option B :=
  match x with
  | Some a => f a
  | None => None
  end.

(** [x?.toString()]. *)
Definition optional_toString {A : Type} (toString : A -> string) (x : option A)
  : option string :=
  match x with
  | Some a => Some (toString a)
  | None => None
  end.

(** [x || d] where [x] is a string or [undefined]: the empty string and
    [undefined] are falsy. *)
Definition or_default (x : option string) (d : string) : string :=
  match x with
  | Some EmptyString => d
  | Some s => s
  | None => d
  end.

Section Command.
Variable P : Platform.

(** [commandFunction]. *)
Definition commandFunction (config : Config) : StartCommand :=
  {| command := "node";
     args := ["build/index.js"];
     env :=
       [ ("NODE_ENV", "production");
         ("CALCULATOR_ENABLED",
          or_default
            (optional_toString Boolean_toString
               (optional (calculator config) calculator_enabled))
            "true");
         ("REST_API_ENABLED",
          or_default
            (optional_toString Boolean_toString
               (optional (restApi config) restApi_enabled))
            "true");
         ("REST_API_MAX_RETRIES",
          or_default
            (optional_toString (NumberToString P)
               (optional (restApi config) maxRetries))
            "3") ] |}.

End Command.

(** The value of a variable of the environment. *)
Fixpoint getenv (name : string) (e : list (string * string)) : option string :=
  match e with
  | [] => None
  | (k, v) :: rest => if String.eqb k name then Some v else getenv name rest
  end.

End Smithery.

(** ** More vocabulary *)

Section Decision.
Variable P : Platform.
Variable params : RestApi.Params.

(** The result that the class of the deciding answer gives. *)
Definition final_result (o : Outcome.t) : ToolResult :=
  match o with
  | Outcome.NotFound =>
      text_result
        ("User with ID " ++ NumberToString P (RestApi.userId params) ++ " not found")
        (Some true)
  | Outcome.RateLimited =>
      text_result "Rate limit exceeded. Please try again later." (Some true)
  | Outcome.Failed error => text_result (failure_text error) (Some true)
  | Outcome.Success userData =>
      text_result (RestApi.formatUserData userData) None
  end.

(** The log of an invocation that ends with its call number [k], counted
    from 0: a wait of [getRetryDelay i] after call [i], for every [i < k]. *)
Fixpoint attempts_log (k : nat) : list RestApi.Event :=
  match k with
  | O => [ request P params ]
  | S k' =>
      (attempts_log k'
       ++ [ RestApi.SetTimeout (RestApi.getRetryDelay k'); request P params ])%list
  end.

(** An answer that ends the loop at every attempt: an absent record or a
    valid one. *)
Definition terminal (o : RestApi.FetchOutcome) : Prop :=
  attempt_outcome P o = Outcome.NotFound
  \/ exists userData, attempt_outcome P o = Outcome.Success userData.

(** What [UserDataSchema] asks of a body for the record [u]. *)
Definition conforms (rawData : JSONValue) (u : RestApi.UserData) : Prop :=
  exists fields afields cfields,
    rawData = JObj fields
    /\ (forall key, In key (map fst fields) ->
        In key ["id"; "name"; "username"; "email"; "address"; "phone"; "website";
                "company"])
    /\ get_property "id" fields = Some (JNum (RestApi.id u))
    /\ RestApi.id u <> S754_nan
    /\ JS.le (RestApi.id u) (JS.of_Z 0) = false
    /\ has_string fields "name" (RestApi.name u)
    /\ RestApi.name u <> ""
    /\ has_string fields "username" (RestApi.username u)
    /\ RestApi.username u <> ""
    /\ has_string fields "email" (RestApi.email u)
    /\ isEmail P (RestApi.email u) = true
    /\ get_property "address" fields = Some (JObj afields)
    /\ has_string afields "street" (RestApi.Address.street (RestApi.address u))
    /\ has_string afields "suite" (RestApi.Address.suite (RestApi.address u))
    /\ has_string afields "city" (RestApi.Address.city (RestApi.address u))
    /\ has_string afields "zipcode" (RestApi.Address.zipcode (RestApi.address u))
    /\ RestApi.zipcode_regex (RestApi.Address.zipcode (RestApi.address u)) = true
    /\ has_string fields "phone" (RestApi.phone u)
    /\ RestApi.phone_regex (RestApi.phone u) = true
    /\ has_string fields "website" (RestApi.website u)
    /\ isURL P (RestApi.website u) = true
    /\ get_property "company" fields = Some (JObj cfields)
    /\ has_string cfields "name" (RestApi.Company.name (RestApi.company u))
    /\ has_string cfields "catchPhrase"
         (RestApi.Company.catchPhrase (RestApi.company u))
    /\ has_string cfields "bs" (RestApi.Company.bs (RestApi.company u)).

End Decision.

(** The milliseconds a log waits in total. *)
Fixpoint total_wait (log : list RestApi.Event) : Z :=
  match log with
  | [] => 0
  | RestApi.SetTimeout ms :: rest => ms + total_wait rest
  | RestApi.Fetch _ _ :: rest => total_wait rest
  end.

(** A mantissa shifted left by [k] bits. *)
Definition shl (m : positive) (k : Z) : positive :=
  match k with
  | Zpos p => Pos.iter xO m p
  | _ => m
  end.

(** The binary64 number of sign [s] and magnitude [v], for a positive
    integer [v] below 2^53: a mantissa of 53 bits. *)
Definition canon (s : bool) (v : positive) : JS.number :=
  S754_finite s (shl v (53 - Zpos (digits2_pos v))) (Zpos (digits2_pos v) - 53).

(** ** More concrete inputs *)

Module MoreExamples.

(** A stand-in for [JSON.stringify(userData, null, 2)], to run the first
    version on concrete inputs. *)
Definition stringify (u : RestApi.UserData) : string := RestApi.name u.

(** A stand-in for the message of a [ZodError]. *)
Definition ZodError_message (errors : list ZodError.ZodIssue) : string :=
  JS.join "; " (map ZodError.message errors).

(** A configuration that switches the calculator off and asks for five
    attempts. *)
Definition config : Smithery.Config :=
  {| Smithery.calculator :=
       Some {| Smithery.calculator_enabled := Some false |};
     Smithery.restApi :=
       Some {| Smithery.restApi_enabled := None;
               Smithery.maxRetries := Some (JS.of_Z 5) |} |}.

End MoreExamples.

(** ** Facts about the string primitives *)

Section Strings.

Lemma prefix_app (sub t : string) : String.prefix sub (sub ++ t) = true.
Proof.
  induction sub as [|c sub IH]; simpl.
  - destruct t; reflexivity.
  - destruct (ascii_dec c c) as [_|N]; [exact IH | contradiction].
Qed.

Lemma occurrences_here (sub t : string) :
  (1 <= JS.occurrences sub (sub ++ t))%nat.
Proof.
  pose proof (prefix_app sub t) as H.
  destruct (sub ++ t); cbn [JS.occurrences]; rewrite H; lia.
Qed.

Lemma occurrences_skip (sub p t : string) :
  (JS.occurrences sub t <= JS.occurrences sub (p ++ t))%nat.
Proof.
  induction p as [|c p IH]; [apply Nat.le_refl|].
  change (String c p ++ t) with (String c (p ++ t)).
  cbn [JS.occurrences]. lia.
Qed.

Lemma includes_here (sub t : string) : JS.includes sub (sub ++ t) = true.
Proof.
  unfold JS.includes. apply Nat.ltb_lt.
  pose proof (occurrences_here sub t). lia.
Qed.

Lemma includes_skip (sub p t : string) :
  JS.includes sub t = true -> JS.includes sub (p ++ t) = true.
Proof.
  unfold JS.includes. rewrite !Nat.ltb_lt.
  pose proof (occurrences_skip sub p t). lia.
Qed.

(** [trimEnd] leaves alone what stands before a kept character. *)
Lemma trimEnd_step (s t t' : string) :
  JS.trimEnd t = t' /\ t' <> "" ->
  JS.trimEnd (s ++ t) = s ++ t' /\ s ++ t' <> "".
Proof.
  intros [E N]. induction s as [|c s [IH1 IH2]]; [now split|].
  change (String c s ++ t) with (String c (s ++ t)).
  change (String c s ++ t') with (String c (s ++ t')).
  split; [|discriminate].
  cbn [JS.trimEnd]. rewrite IH1.
  destruct (s ++ t'); [contradiction|reflexivity].
Qed.

End Strings.

(** [trim()] removes the first and the last line feed of the template and
    nothing else, whatever the record holds. *)
Lemma formatUserData_eq (u : RestApi.UserData) :
  RestApi.formatUserData u =
  "User Profile:" ++ JS.LF ++
  "  Name: " ++ RestApi.name u ++ JS.LF ++
  "  Username: " ++ RestApi.username u ++ JS.LF ++
  "  Email: " ++ RestApi.email u ++ JS.LF ++
  "  Address: " ++ RestApi.Address.street (RestApi.address u) ++ ", "
                ++ RestApi.Address.suite (RestApi.address u) ++ JS.LF ++
  "           " ++ RestApi.Address.city (RestApi.address u) ++ ", "
                ++ RestApi.Address.zipcode (RestApi.address u) ++ JS.LF ++
  "  Phone: " ++ RestApi.phone u ++ JS.LF ++
  "  Website: " ++ RestApi.website u ++ JS.LF ++
  "  Company: " ++ RestApi.Company.name (RestApi.company u) ++ JS.LF ++
  "          " ++ JS.DQUOTE ++ RestApi.Company.catchPhrase (RestApi.company u)
               ++ JS.DQUOTE.
Proof.
  unfold RestApi.formatUserData, RestApi.formatUserData_template, JS.trim.
  match goal with
  | |- JS.trimEnd (JS.trimStart (JS.LF ++ ?p ++ ?x)) = _ =>
      change (JS.trimStart (JS.LF ++ p ++ x)) with (p ++ x)
  end.
  repeat (apply trimEnd_step || (split; [reflexivity | discriminate])).
Qed.

(** ** Facts about numbers *)

Lemma add_comm (a b : JS.number) : JS.add a b = JS.add b a.
Proof.
  unfold JS.add, SFadd.
  destruct a as [sa|sa| |sa ma ea], b as [sb|sb| |sb mb eb]; try reflexivity.
  - destruct sa, sb; reflexivity.
  - destruct sa, sb; reflexivity.
  - rewrite (Z.min_comm ea eb). f_equal. apply Z.add_comm.
Qed.

Lemma getRetryDelay_S (attempt : nat) :
  RestApi.getRetryDelay (S attempt) = 2 * RestApi.getRetryDelay attempt.
Proof.
  unfold RestApi.getRetryDelay. rewrite Nat2Z.inj_succ, Z.pow_succ_r by lia. lia.
Qed.

Lemma getRetryDelay_pos (attempt : nat) : 0 < RestApi.getRetryDelay attempt.
Proof.
  unfold RestApi.getRetryDelay, RestApi.INITIAL_RETRY_DELAY.
  apply Z.mul_pos_pos; [lia|]. apply Z.pow_pos_nonneg; lia.
Qed.

Lemma getRetryDelay_lt_S (attempt : nat) :
  RestApi.getRetryDelay attempt < RestApi.getRetryDelay (S attempt).
Proof.
  rewrite getRetryDelay_S. pose proof (getRetryDelay_pos attempt). lia.
Qed.

Lemma getRetryDelay_mono (m n : nat) :
  (m < n)%nat -> RestApi.getRetryDelay m < RestApi.getRetryDelay n.
Proof.
  intros L. induction L as [|n L IH].
  - apply getRetryDelay_lt_S.
  - pose proof (getRetryDelay_lt_S n). lia.
Qed.

(** ** Facts about the validation library *)

Section Validation.

Lemma parse_In {A : Type} (schema : Zod.ZodType A) (data : JSONValue)
  (x : ZodError.ZodIssue) :
  In x (fst (schema [] (Some data))) ->
  exists errors, Zod.parse schema data = inl (ZodError errors) /\ In x errors.
Proof.
  unfold Zod.parse. destruct (schema [] (Some data)) as [[|i issues] v]; cbn [fst].
  - intros [].
  - intros H. eexists. split; [reflexivity|exact H].
Qed.

Lemma In_object {A : Type} (unknownKeys : Zod.UnknownKeysParam) (sh : Zod.Shape A)
  (path : list string) (data : list (string * JSONValue)) (x : ZodError.ZodIssue) :
  In x (fst (Zod.shape_parse sh data path)) ->
  In x (fst (Zod.object unknownKeys sh path (Some (JObj data)))).
Proof.
  unfold Zod.object. destruct (Zod.shape_parse sh data path) as [issues v].
  cbn [fst]. intros H.
  destruct unknownKeys; [exact H|].
  destruct (filter _ _); cbn [fst]; [exact H|].
  apply in_or_app. now left.
Qed.

Lemma In_field_here {A B : Type} (key : string) (schema : Zod.ZodType A)
  (sh : Zod.Shape (A -> B)) (path : list string)
  (data : list (string * JSONValue)) (x : ZodError.ZodIssue) :
  In x (fst (schema (path ++ [key])%list (get_property key data))) ->
  In x (fst (Zod.shape_parse (Zod.field key schema sh) data path)).
Proof.
  cbn [Zod.field Zod.shape_field Zod.shape_parse].
  destruct (Zod.shape_parse sh data path) as [i1 f].
  destruct (schema _ _) as [i2 a]. cbn [fst]. intros H.
  apply in_or_app. now right.
Qed.

Lemma In_field_before {A B : Type} (key : string) (schema : Zod.ZodType A)
  (sh : Zod.Shape (A -> B)) (path : list string)
  (data : list (string * JSONValue)) (x : ZodError.ZodIssue) :
  In x (fst (Zod.shape_parse sh data path)) ->
  In x (fst (Zod.shape_parse (Zod.field key schema sh) data path)).
Proof.
  cbn [Zod.field Zod.shape_field Zod.shape_parse].
  destruct (Zod.shape_parse sh data path) as [i1 f].
  destruct (schema _ _) as [i2 a]. cbn [fst]. intros H.
  apply in_or_app. now left.
Qed.

Lemma parse_inr {A : Type} (schema : Zod.ZodType A) (data : JSONValue) (u : A) :
  Zod.parse schema data = inr u -> schema [] (Some data) = ([], Some u).
Proof.
  unfold Zod.parse. destruct (schema [] (Some data)) as [[|i issues] [v|]];
    intros H; inversion H; reflexivity.
Qed.

Lemma object_inv {A : Type} (unknownKeys : Zod.UnknownKeysParam) (sh : Zod.Shape A)
  (path : list string) (input : option JSONValue) (u : A) :
  Zod.object unknownKeys sh path input = ([], Some u) ->
  exists fields,
    input = Some (JObj fields)
    /\ Zod.shape_parse sh fields path = ([], Some u)
    /\ (unknownKeys = Zod.strict ->
        forall key, In key (map fst fields) -> In key (Zod.shape_keys sh)).
Proof.
  unfold Zod.object. destruct input as [[| | | | |fields]|]; try discriminate.
  destruct (Zod.shape_parse sh fields path) as [issues v] eqn:S.
  destruct unknownKeys.
  - intros H. exists fields. repeat split; [congruence|discriminate].
  - destruct (filter _ _) as [|k extra] eqn:F.
    + intros H. exists fields. repeat split; [congruence|].
      intros _ key K.
      destruct (existsb (String.eqb key) (Zod.shape_keys sh)) eqn:X.
      * apply existsb_exists in X. destruct X as (k & I & Q).
        apply String.eqb_eq in Q. now subst.
      * assert (In key []) as []. rewrite <- F. apply filter_In. now rewrite X.
    + intros H. inversion H as [[H1 H2]]. now apply app_eq_nil in H1.
Qed.

Lemma field_inv {A B : Type} (key : string) (schema : Zod.ZodType A)
  (sh : Zod.Shape (A -> B)) (path : list string)
  (data : list (string * JSONValue)) (b : B) :
  Zod.shape_parse (Zod.field key schema sh) data path = ([], Some b) ->
  exists f a,
    Zod.shape_parse sh data path = ([], Some f)
    /\ schema (path ++ [key])%list (get_property key data) = ([], Some a)
    /\ b = f a.
Proof.
  cbn [Zod.field Zod.shape_field Zod.shape_parse].
  destruct (Zod.shape_parse sh data path) as [i1 [f|]];
    destruct (schema _ _) as [i2 [a|]]; intros H; inversion H as [[H1 H2]].
  apply app_eq_nil in H1. destruct H1 as [-> ->]. now exists f, a.
Qed.

Lemma parse_string_inv (P : Platform) (checks : Zod.ZodString) (path : list string)
  (input : option JSONValue) (s : string) :
  Zod.parse_string P checks path input = ([], Some s) ->
  input = Some (JStr s)
  /\ forall check, In check checks -> Zod.string_check P path s check = [].
Proof.
  unfold Zod.parse_string. destruct input as [[| | |data| |]|]; try discriminate.
  intros H. injection H as H1 ->. split; [reflexivity|].
  intros check I.
  destruct (Zod.string_check P path s check) as [|x l] eqn:E; [reflexivity|].
  assert (In x []) as []. rewrite <- H1. apply in_flat_map. exists check.
  split; [exact I|]. rewrite E. now left.
Qed.

Lemma parse_number_inv (checks : Zod.ZodNumber) (path : list string)
  (input : option JSONValue) (n : JS.number) :
  Zod.parse_number checks path input = ([], Some n) ->
  input = Some (JNum n) /\ n <> S754_nan
  /\ forall check, In check checks -> Zod.number_check path n check = [].
Proof.
  unfold Zod.parse_number.
  destruct input as [[| |data| | |]|]; cbn [ZodError.getParsedType];
    try discriminate.
  destruct data; try discriminate; intros H; injection H as H1 <-;
    (split; [reflexivity|]); (split; [discriminate|]);
    intros check I;
    match goal with
    | |- Zod.number_check ?p ?n ?c = [] =>
        destruct (Zod.number_check p n c) as [|x l] eqn:E; [reflexivity|];
        assert (In x []) as []; rewrite <- H1; apply in_flat_map; exists c;
        split; [exact I|]; rewrite E; now left
    end.
Qed.

End Validation.

(** ** What a body that validates looks like *)

(** A body that [UserDataSchema] accepts is an object with no key outside
    the shape, whose fields have the types of the shape and meet its checks:
    a positive [id], a non-empty [name] and [username], an [email] that
    passes the email test, a [zipcode] and a [phone] that match their
    regular expressions, and a [website] that the [URL] constructor
    accepts. The record returned holds the values of these fields. *)
Lemma UserDataSchema_sound (P : Platform) (rawData : JSONValue)
  (u : RestApi.UserData) :
  Zod.parse (RestApi.UserDataSchema P) rawData = inr u ->
  exists fields afields cfields,
    rawData = JObj fields
    /\ (forall key, In key (map fst fields) ->
        In key ["id"; "name"; "username"; "email"; "address"; "phone"; "website";
                "company"])
    /\ get_property "id" fields = Some (JNum (RestApi.id u))
    /\ RestApi.id u <> S754_nan
    /\ JS.le (RestApi.id u) (JS.of_Z 0) = false
    /\ has_string fields "name" (RestApi.name u)
    /\ RestApi.name u <> ""
    /\ has_string fields "username" (RestApi.username u)
    /\ RestApi.username u <> ""
    /\ has_string fields "email" (RestApi.email u)
    /\ isEmail P (RestApi.email u) = true
    /\ get_property "address" fields = Some (JObj afields)
    /\ has_string afields "street" (RestApi.Address.street (RestApi.address u))
    /\ has_string afields "suite" (RestApi.Address.suite (RestApi.address u))
    /\ has_string afields "city" (RestApi.Address.city (RestApi.address u))
    /\ has_string afields "zipcode" (RestApi.Address.zipcode (RestApi.address u))
    /\ RestApi.zipcode_regex (RestApi.Address.zipcode (RestApi.address u)) = true
    /\ has_string fields "phone" (RestApi.phone u)
    /\ RestApi.phone_regex (RestApi.phone u) = true
    /\ has_string fields "website" (RestApi.website u)
    /\ isURL P (RestApi.website u) = true
    /\ get_property "company" fields = Some (JObj cfields)
    /\ has_string cfields "name" (RestApi.Company.name (RestApi.company u))
    /\ has_string cfields "catchPhrase"
         (RestApi.Company.catchPhrase (RestApi.company u))
    /\ has_string cfields "bs" (RestApi.Company.bs (RestApi.company u)).
Proof.
  intros H. apply parse_inr in H. unfold RestApi.UserDataSchema in H.
  apply object_inv in H. destruct H as (fields & [= ->] & H & K).
  specialize (K eq_refl).
  apply field_inv in H. destruct H as (f8 & company & H & Hcompany & ->).
  apply field_inv in H. destruct H as (f7 & website & H & Hwebsite & ->).
  apply field_inv in H. destruct H as (f6 & phone & H & Hphone & ->).
  apply field_inv in H. destruct H as (f5 & address & H & Haddress & ->).
  apply field_inv in H. destruct H as (f4 & email & H & Hemail & ->).
  apply field_inv in H. destruct H as (f3 & username & H & Husername & ->).
  apply field_inv in H. destruct H as (f2 & name & H & Hname & ->).
  apply field_inv in H. destruct H as (f1 & id & H & Hid & ->).
  cbn [Zod.shape_of Zod.shape_parse] in H. injection H as <-.
  apply object_inv in Haddress. destruct Haddress as (afields & Eaddress & Ha & _).
  apply field_inv in Ha. destruct Ha as (g4 & zipcode & Ha & Hzipcode & ->).
  apply field_inv in Ha. destruct Ha as (g3 & city & Ha & Hcity & ->).
  apply field_inv in Ha. destruct Ha as (g2 & suite & Ha & Hsuite & ->).
  apply field_inv in Ha. destruct Ha as (g1 & street & Ha & Hstreet & ->).
  cbn [Zod.shape_of Zod.shape_parse] in Ha. injection Ha as <-.
  apply object_inv in Hcompany. destruct Hcompany as (cfields & Ecompany & Hc & _).
  apply field_inv in Hc. destruct Hc as (h3 & bs & Hc & Hbs & ->).
  apply field_inv in Hc. destruct Hc as (h2 & catchPhrase & Hc & HcatchPhrase & ->).
  apply field_inv in Hc. destruct Hc as (h1 & cname & Hc & Hcname & ->).
  cbn [Zod.shape_of Zod.shape_parse] in Hc. injection Hc as <-.
  apply parse_number_inv in Hid. destruct Hid as (Eid & Nid & Cid).
  apply parse_string_inv in Hname, Husername, Hemail, Hphone, Hwebsite, Hzipcode,
    Hcity, Hsuite, Hstreet, Hbs, HcatchPhrase, Hcname.
  destruct Hname as (Ename & Cname), Husername as (Eusername & Cusername),
    Hemail as (Eemail & Cemail), Hphone as (Ephone & Cphone),
    Hwebsite as (Ewebsite & Cwebsite), Hzipcode as (Ezipcode & Czipcode),
    Hcity as (Ecity & _), Hsuite as (Esuite & _), Hstreet as (Estreet & _),
    Hbs as (Ebs & _), HcatchPhrase as (EcatchPhrase & _), Hcname as (Ecname & _).
  exists fields, afields, cfields. cbn.
  unfold has_string.
  specialize (Cid _ (or_introl eq_refl)).
  specialize (Cname _ (or_introl eq_refl)).
  specialize (Cusername _ (or_introl eq_refl)).
  specialize (Cemail _ (or_introl eq_refl)).
  specialize (Cphone _ (or_introl eq_refl)).
  specialize (Cwebsite _ (or_introl eq_refl)).
  specialize (Czipcode _ (or_introl eq_refl)).
  cbn [Zod.number_check Zod.string_check] in *.
  repeat match goal with
         | H : (if ?c then _ else _) = [] |- _ =>
             destruct c eqn:?; try discriminate H; clear H
         end.
  repeat split; auto; intros ->; discriminate.
Qed.

(** A body without [email] fails the validation, and one of the issues is
    the one of the missing key: its path is [email], its message is
    "Required". *)
Lemma missing_email (P : Platform) (fields : list (string * JSONValue)) :
  get_property "email" fields = None ->
  exists errors,
    Zod.parse (RestApi.UserDataSchema P) (JObj fields) = inl (ZodError errors)
    /\ In Examples.email_required errors.
Proof.
  intros E. apply parse_In. unfold RestApi.UserDataSchema.
  apply In_object. do 4 apply In_field_before. apply In_field_here.
  rewrite E. left. reflexivity.
Qed.

(** ** The retry loop, iteration by iteration *)

Section HandlerFacts.
Variable P : Platform.
Variable params : RestApi.Params.

(** The loop body does what [iteration_spec] says. *)
Lemma iteration_eq (attempt : nat) (w : RestApi.World) (s : RestApi.Run) :
  RestApi.iteration P params attempt w s
  = iteration_spec P params attempt (w (RestApi.calls s)) s.
Proof.
  unfold iteration_spec, attempt_outcome, RestApi.iteration, RestApi.attempt_try,
    RestApi.attempt_catch, RestApi.fetch, RestApi.sleep, RestApi.completion,
    request, text_result, failure_text.
  cbn [catch bind ret raise RestApi.Monad_M RestApi.MonadExc_M].
  destruct (w (RestApi.calls s)) as [reason|response].
  - destruct (attempt =? RestApi.MAX_RETRIES - 1)%nat; [destruct reason|];
      reflexivity.
  - destruct (RestApi.status response =? 404); [reflexivity|].
    destruct (RestApi.status response =? 429).
    + destruct (attempt =? RestApi.MAX_RETRIES - 1)%nat; reflexivity.
    + destruct (negb (RestApi.ok response)).
      * destruct (attempt =? RestApi.MAX_RETRIES - 1)%nat; reflexivity.
      * destruct (RestApi.json response) as [e|rawData].
        -- destruct (attempt =? RestApi.MAX_RETRIES - 1)%nat; [destruct e|];
             reflexivity.
        -- destruct (Zod.parse (RestApi.UserDataSchema P) rawData) as [e|userData];
             [|reflexivity].
           destruct (attempt =? RestApi.MAX_RETRIES - 1)%nat; [destruct e|];
             reflexivity.
Qed.

Lemma retry_loop_S (remaining attempt : nat) (w : RestApi.World) (s : RestApi.Run) :
  RestApi.retry_loop P params (S remaining) attempt w s
  = match iteration_spec P params attempt (w (RestApi.calls s)) s with
    | (inl e, s') => (inl e, s')
    | (inr (RestApi.Return result), s') => (inr (Some result), s')
    | (inr RestApi.Continue, s') =>
        RestApi.retry_loop P params remaining (S attempt) w s'
    end.
Proof.
  rewrite <- iteration_eq.
  cbn [RestApi.retry_loop bind ret RestApi.Monad_M].
  destruct (RestApi.iteration P params attempt w s) as [[e|[result|]] s'];
    reflexivity.
Qed.

Lemma fetch_user_eq (w : RestApi.World) (s : RestApi.Run) :
  RestApi.fetch_user P params w s
  = match RestApi.retry_loop P params RestApi.MAX_RETRIES 0 w s with
    | (inl e, s') => (inl e, s')
    | (inr (Some result), s') => (inr result, s')
    | (inr None, s') => (inr RestApi.exhausted, s')
    end.
Proof.
  unfold RestApi.fetch_user, RestApi.MAX_RETRIES.
  cbn [bind ret RestApi.Monad_M Nat.sub].
  destruct (RestApi.retry_loop P params 3 0 w s) as [[e|[result|]] s'];
    reflexivity.
Qed.

Lemma outcome_absent (o : RestApi.FetchOutcome) :
  absent o -> attempt_outcome P o = Outcome.NotFound.
Proof.
  intros (response & -> & E). unfold attempt_outcome. now rewrite E.
Qed.

Lemma outcome_rate_limited (o : RestApi.FetchOutcome) :
  rate_limited o -> attempt_outcome P o = Outcome.RateLimited.
Proof.
  intros (response & -> & E). unfold attempt_outcome. now rewrite E.
Qed.

Lemma outcome_body (response : RestApi.Response) (rawData : JSONValue) :
  RestApi.status response <> 404 ->
  RestApi.status response <> 429 ->
  RestApi.ok response = true ->
  RestApi.json response = inr rawData ->
  attempt_outcome P (RestApi.Resolved response)
  = match Zod.parse (RestApi.UserDataSchema P) rawData with
    | inl e => Outcome.Failed e
    | inr userData => Outcome.Success userData
    end.
Proof.
  intros N1 N2 K J. unfold attempt_outcome.
  apply Z.eqb_neq in N1, N2. now rewrite N1, N2, K, J.
Qed.

Lemma outcome_status (response : RestApi.Response) :
  RestApi.status response <> 404 ->
  RestApi.status response <> 429 ->
  RestApi.ok response = false ->
  attempt_outcome P (RestApi.Resolved response)
  = Outcome.Failed
      (Error ("HTTP " ++ JS.Z_to_string (RestApi.status response) ++ ": "
              ++ RestApi.statusText response)).
Proof.
  intros N1 N2 K. unfold attempt_outcome.
  apply Z.eqb_neq in N1, N2. now rewrite N1, N2, K.
Qed.

Lemma outcome_invalid_body (o : RestApi.FetchOutcome)
  (errors : list ZodError.ZodIssue) :
  invalid_body P o errors -> attempt_outcome P o = Outcome.Failed (ZodError errors).
Proof.
  intros (response & rawData & -> & N1 & N2 & K & J & E).
  now rewrite (outcome_body response rawData N1 N2 K J), E.
Qed.

Lemma outcome_valid_body (o : RestApi.FetchOutcome) (u : RestApi.UserData) :
  valid_body P o u -> attempt_outcome P o = Outcome.Success u.
Proof.
  intros (response & rawData & -> & N1 & N2 & K & J & E).
  now rewrite (outcome_body response rawData N1 N2 K J), E.
Qed.

(** The loop, entered with attempts left, returns from one of its
    iterations: the answer to the last call made decides the result. *)
Lemma retry_loop_returns (w : RestApi.World) (remaining : nat) :
  forall (attempt : nat) (s : RestApi.Run),
    (attempt + S remaining = RestApi.MAX_RETRIES)%nat ->
    exists (result : ToolResult) (s' : RestApi.Run) (n : nat),
      RestApi.retry_loop P params (S remaining) attempt w s = (inr (Some result), s')
      /\ (RestApi.calls s <= n < RestApi.calls s + S remaining)%nat
      /\ RestApi.calls s' = S n
      /\ (exists t, content result = [ {| type := "text"; text := t |} ])
      /\ match attempt_outcome P (w n) with
         | Outcome.Success u =>
             result = text_result (RestApi.formatUserData u) None
         | _ => isError result = Some true
         end.
Proof.
  induction remaining as [|remaining IH]; intros attempt s A;
    rewrite retry_loop_S; unfold iteration_spec.
  - replace attempt with 2%nat by (unfold RestApi.MAX_RETRIES in A; lia).
    cbn [Nat.eqb RestApi.MAX_RETRIES Nat.sub].
    destruct (attempt_outcome P (w (RestApi.calls s))) eqn:O;
      eexists _, _, (RestApi.calls s);
      (split; [reflexivity|]); rewrite O;
      (split; [lia|]); (split; [reflexivity|]);
      (split; [eexists; reflexivity|reflexivity]).
  - assert ((attempt =? RestApi.MAX_RETRIES - 1)%nat = false) as ->
      by (apply Nat.eqb_neq; unfold RestApi.MAX_RETRIES in *; lia).
    destruct (attempt_outcome P (w (RestApi.calls s))) eqn:O.
    1, 4: eexists _, _, (RestApi.calls s);
      (split; [reflexivity|]); rewrite O;
      (split; [lia|]); (split; [reflexivity|]);
      (split; [eexists; reflexivity|reflexivity]).
    all: match goal with
         | |- context [RestApi.retry_loop _ _ _ _ _ ?s1] =>
             destruct (IH (S attempt) s1 ltac:(lia))
               as (result & s' & n & E & B & C & T & R)
         end;
      exists result, s', n; cbn [RestApi.calls] in B;
      (split; [exact E|]); (split; [lia|]); auto.
Qed.

End HandlerFacts.

(** Runs the loop of an invocation on answers whose classes are known. *)
Ltac run_attempts :=
  rewrite fetch_user_eq; unfold RestApi.MAX_RETRIES, RestApi.start;
  repeat (rewrite retry_loop_S; unfold iteration_spec;
          cbn [RestApi.calls RestApi.log app];
          match goal with
          | H : attempt_outcome _ _ = _ |- _ => rewrite H; clear H
          end;
          cbn [Nat.eqb RestApi.MAX_RETRIES Nat.sub]).

(** ** Properties of [fetch_user] *)

(** C1: when the first two calls are answered by HTTP 429 and the third by an
    OK response whose body validates as [userData], the handler makes exactly
    three calls, waits [getRetryDelay 0] after the first and
    [getRetryDelay 1] after the second, and returns the formatted record with
    no [isError]. *)
Theorem rate_limited_twice_then_success
  (P : Platform) (params : RestApi.Params) (w : RestApi.World)
  (userData : RestApi.UserData) :
  rate_limited (w 0%nat) ->
  rate_limited (w 1%nat) ->
  valid_body P (w 2%nat) userData ->
  RestApi.fetch_user P params w RestApi.start
  = (inr (text_result (RestApi.formatUserData userData) None),
     {| RestApi.calls := 3;
        RestApi.log :=
          [ request P params; RestApi.SetTimeout (RestApi.getRetryDelay 0);
            request P params; RestApi.SetTimeout (RestApi.getRetryDelay 1);
            request P params ] |}).
Proof.
  intros H0 H1 H2.
  apply (outcome_rate_limited P) in H0, H1.
  apply outcome_valid_body in H2.
  run_attempts. reflexivity.
Qed.

Lemma rate_limited_twice_then_success_witness :
  RestApi.fetch_user Sample.platform Examples.params
    (Examples.answers [Examples.too_many; Examples.too_many]
       (RestApi.Resolved (Examples.ok_response Examples.user_json)))
    RestApi.start
  = (inr (text_result (RestApi.formatUserData Examples.user) None),
     {| RestApi.calls := 3;
        RestApi.log :=
          [ request Sample.platform Examples.params; RestApi.SetTimeout 1000;
            request Sample.platform Examples.params; RestApi.SetTimeout 2000;
            request Sample.platform Examples.params ] |}).
Proof.
  apply (rate_limited_twice_then_success Sample.platform Examples.params).
  - eexists. split; reflexivity.
  - eexists. split; reflexivity.
  - exists (Examples.ok_response Examples.user_json), Examples.user_json.
    repeat split; try discriminate; vm_compute; reflexivity.
Defined.

(** C2: when the first call is answered by HTTP 404, the handler makes
    exactly one call, waits for nothing, and returns [isError = true] with
    the text "User with ID <id> not found", which contains the identifier as
    the template literal prints it and the words "not found". *)
Theorem absent_record_not_retried
  (P : Platform) (params : RestApi.Params) (w : RestApi.World) :
  absent (w 0%nat) ->
  let id := NumberToString P (RestApi.userId params) in
  let t := "User with ID " ++ id ++ " not found" in
  RestApi.fetch_user P params w RestApi.start
  = (inr (text_result t (Some true)),
     {| RestApi.calls := 1; RestApi.log := [ request P params ] |})
  /\ JS.includes id t = true
  /\ JS.includes "not found" t = true.
Proof.
  intros H0 id t. apply (outcome_absent P) in H0.
  split; [run_attempts; reflexivity|].
  unfold t. split.
  - apply includes_skip, includes_here.
  - do 2 apply includes_skip. reflexivity.
Qed.

Lemma absent_record_not_retried_witness :
  RestApi.fetch_user Sample.platform Examples.params
    (Examples.always (RestApi.Resolved (Examples.status_response 404 "Not Found")))
    RestApi.start
  = (inr (text_result "User with ID 1 not found" (Some true)),
     {| RestApi.calls := 1;
        RestApi.log := [ request Sample.platform Examples.params ] |})
  /\ JS.includes "1" "User with ID 1 not found" = true
  /\ JS.includes "not found" "User with ID 1 not found" = true.
Proof.
  apply (absent_record_not_retried Sample.platform Examples.params).
  eexists. split; reflexivity.
Defined.

(** C3: when all three calls are answered by HTTP 429, the handler makes
    exactly three calls, with the two waits between them, and returns
    [isError = true] with the rate-limit message. *)
Theorem rate_limited_every_attempt
  (P : Platform) (params : RestApi.Params) (w : RestApi.World) :
  rate_limited (w 0%nat) ->
  rate_limited (w 1%nat) ->
  rate_limited (w 2%nat) ->
  RestApi.fetch_user P params w RestApi.start
  = (inr (text_result "Rate limit exceeded. Please try again later." (Some true)),
     {| RestApi.calls := 3;
        RestApi.log :=
          [ request P params; RestApi.SetTimeout (RestApi.getRetryDelay 0);
            request P params; RestApi.SetTimeout (RestApi.getRetryDelay 1);
            request P params ] |}).
Proof.
  intros H0 H1 H2.
  apply (outcome_rate_limited P) in H0, H1, H2.
  run_attempts. reflexivity.
Qed.

Lemma rate_limited_every_attempt_witness :
  RestApi.fetch_user Sample.platform Examples.params
    (Examples.always Examples.too_many) RestApi.start
  = (inr (text_result "Rate limit exceeded. Please try again later." (Some true)),
     {| RestApi.calls := 3;
        RestApi.log :=
          [ request Sample.platform Examples.params; RestApi.SetTimeout 1000;
            request Sample.platform Examples.params; RestApi.SetTimeout 2000;
            request Sample.platform Examples.params ] |}).
Proof.
  apply (rate_limited_every_attempt Sample.platform Examples.params);
    eexists; split; reflexivity.
Defined.

(** C4: [INITIAL_RETRY_DELAY] is 1000 ms, [getRetryDelay attempt] is
    [INITIAL_RETRY_DELAY * 2 ^ attempt] with [attempt] counted from 0, that
    is 1000, 2000 and 4000 ms for the attempts 0, 1 and 2, and it is strictly
    increasing over these attempts. *)
Theorem getRetryDelay_spec :
  RestApi.INITIAL_RETRY_DELAY = 1000
  /\ (forall attempt : nat,
        RestApi.getRetryDelay attempt
        = RestApi.INITIAL_RETRY_DELAY * 2 ^ Z.of_nat attempt)
  /\ RestApi.getRetryDelay 0 = 1000
  /\ RestApi.getRetryDelay 1 = 2000
  /\ RestApi.getRetryDelay 2 = 4000
  /\ (forall m n : nat,
        (m < n)%nat -> (n < RestApi.MAX_RETRIES)%nat ->
        RestApi.getRetryDelay m < RestApi.getRetryDelay n).
Proof.
  repeat split; try reflexivity.
  intros m n L _. now apply getRetryDelay_mono.
Qed.




(** C6, as amended: when every call is answered by an OK response whose body
    fails the validation, the handler waits [getRetryDelay attempt] after
    each of the first two attempts, makes all three calls, and returns
    [isError = true] with the text "Invalid API response format: " followed
    by the messages of the issues of the last body, joined by ", ". A body
    without [email] fails with an issue whose path is [email] and whose
    message is "Required": the name of the field is in the path of the issue,
    which the text leaves out. *)
Theorem invalid_body_every_attempt
  (P : Platform) (params : RestApi.Params) (w : RestApi.World)
  (errors0 errors1 errors2 : list ZodError.ZodIssue) :
  invalid_body P (w 0%nat) errors0 ->
  invalid_body P (w 1%nat) errors1 ->
  invalid_body P (w 2%nat) errors2 ->
  RestApi.fetch_user P params w RestApi.start
  = (inr (text_result
            ("Invalid API response format: "
             ++ JS.join ", " (map ZodError.message errors2))
            (Some true)),
     {| RestApi.calls := 3;
        RestApi.log :=
          [ request P params; RestApi.SetTimeout (RestApi.getRetryDelay 0);
            request P params; RestApi.SetTimeout (RestApi.getRetryDelay 1);
            request P params ] |})
  /\ forall fields : list (string * JSONValue),
       get_property "email" fields = None ->
       exists errors,
         Zod.parse (RestApi.UserDataSchema P) (JObj fields) = inl (ZodError errors)
         /\ In {| ZodError.issue :=
                    ZodError.invalid_type ZodError.t_string ZodError.t_undefined;
                  ZodError.path := ["email"];
                  ZodError.message := "Required" |} errors.
Proof.
  intros H0 H1 H2. split; [|apply missing_email].
  apply outcome_invalid_body in H0, H1, H2.
  run_attempts. reflexivity.
Qed.

Lemma no_email_invalid (n : nat) :
  invalid_body Sample.platform
    (Examples.always
       (RestApi.Resolved (Examples.ok_response Examples.no_email_json)) n)
    [Examples.email_required].
Proof.
  exists (Examples.ok_response Examples.no_email_json), Examples.no_email_json.
  repeat split; try discriminate; vm_compute; reflexivity.
Defined.

Lemma invalid_body_every_attempt_witness :
  RestApi.fetch_user Sample.platform Examples.params
    (Examples.always
       (RestApi.Resolved (Examples.ok_response Examples.no_email_json)))
    RestApi.start
  = (inr (text_result
            ("Invalid API response format: "
             ++ JS.join ", " (map ZodError.message [Examples.email_required]))
            (Some true)),
     {| RestApi.calls := 3;
        RestApi.log :=
          [ request Sample.platform Examples.params; RestApi.SetTimeout 1000;
            request Sample.platform Examples.params; RestApi.SetTimeout 2000;
            request Sample.platform Examples.params ] |}).
Proof.
  apply (invalid_body_every_attempt Sample.platform Examples.params
           (Examples.always
              (RestApi.Resolved (Examples.ok_response Examples.no_email_json)))
           [Examples.email_required] [Examples.email_required]
           [Examples.email_required]);
    apply no_email_invalid.
Defined.

(** C6, as stated, fails: every call is answered by an OK response whose body
    lacks [email] (and only that), the handler makes the three calls and
    returns [isError = true], and its text is
    "Invalid API response format: Required", which does not name the missing
    field. *)
Lemma missing_field_not_named :
  invalid_body Sample.platform
    (Examples.always
       (RestApi.Resolved (Examples.ok_response Examples.no_email_json)) 2%nat)
    [Examples.email_required]
  /\ Examples.run
       (Examples.always
          (RestApi.Resolved (Examples.ok_response Examples.no_email_json)))
     = (inr (text_result "Invalid API response format: Required" (Some true)),
        {| RestApi.calls := 3;
           RestApi.log :=
             [ request Sample.platform Examples.params; RestApi.SetTimeout 1000;
               request Sample.platform Examples.params; RestApi.SetTimeout 2000;
               request Sample.platform Examples.params ] |})
  /\ JS.includes "email" "Invalid API response format: Required" = false.
Proof.
  split; [apply no_email_invalid|]. split; vm_compute; reflexivity.
Qed.

(** C7, as amended: when the first two attempts are retried and a failure is
    raised on the third, the handler returns [isError = true] with a text
    that depends on the class of the failure: for a validation failure,
    "Invalid API response format: " followed by the messages of its issues
    joined by ", "; for any other [Error], "Failed to fetch user data: "
    followed by the message of the error itself; for a thrown value that is
    not an [Error], a fixed text. A response whose status is not OK (and
    neither 404 nor 429) raises the [Error] with the message
    "HTTP <status>: <statusText>". *)
Theorem failure_on_last_attempt
  (P : Platform) (params : RestApi.Params) (w : RestApi.World) (error : thrown) :
  retried P (w 0%nat) ->
  retried P (w 1%nat) ->
  attempt_outcome P (w 2%nat) = Outcome.Failed error ->
  RestApi.fetch_user P params w RestApi.start
  = (inr (text_result
            match error with
            | ZodError errors =>
                "Invalid API response format: "
                ++ JS.join ", " (map ZodError.message errors)
            | Error message => "Failed to fetch user data: " ++ message
            | NonError _ => "An unknown error occurred while fetching user data"
            end
            (Some true)),
     {| RestApi.calls := 3;
        RestApi.log :=
          [ request P params; RestApi.SetTimeout (RestApi.getRetryDelay 0);
            request P params; RestApi.SetTimeout (RestApi.getRetryDelay 1);
            request P params ] |})
  /\ forall response : RestApi.Response,
       w 2%nat = RestApi.Resolved response ->
       RestApi.status response <> 404 ->
       RestApi.status response <> 429 ->
       RestApi.ok response = false ->
       error = Error ("HTTP " ++ JS.Z_to_string (RestApi.status response) ++ ": "
                      ++ RestApi.statusText response).
Proof.
  intros H0 H1 H2. split.
  - destruct H0 as [H0|[e0 H0]], H1 as [H1|[e1 H1]]; run_attempts; reflexivity.
  - intros response E N1 N2 K. rewrite E in H2.
    rewrite (outcome_status P response N1 N2 K) in H2. now injection H2.
Qed.

Lemma status_503_retried (n : nat) :
  attempt_outcome Sample.platform
    (Examples.always
       (RestApi.Resolved (Examples.status_response 503 "Service Unavailable")) n)
  = Outcome.Failed (Error "HTTP 503: Service Unavailable").
Proof. reflexivity. Defined.

Lemma failure_on_last_attempt_witness :
  RestApi.fetch_user Sample.platform Examples.params
    (Examples.always
       (RestApi.Resolved (Examples.status_response 503 "Service Unavailable")))
    RestApi.start
  = (inr (text_result "Failed to fetch user data: HTTP 503: Service Unavailable"
            (Some true)),
     {| RestApi.calls := 3;
        RestApi.log :=
          [ request Sample.platform Examples.params; RestApi.SetTimeout 1000;
            request Sample.platform Examples.params; RestApi.SetTimeout 2000;
            request Sample.platform Examples.params ] |}).
Proof.
  apply (failure_on_last_attempt Sample.platform Examples.params
           (Examples.always
              (RestApi.Resolved
                 (Examples.status_response 503 "Service Unavailable")))
           (Error "HTTP 503: Service Unavailable")).
  - right. eexists. apply status_503_retried.
  - right. eexists. apply status_503_retried.
  - apply status_503_retried.
Defined.

(** C7, as stated, fails: when every call is rejected by the transport with
    an error whose message names the address that refused the connection,
    the text returned after the last attempt is that message behind the
    prefix "Failed to fetch user data: ", address included; it is not a
    generic text. *)
Lemma transport_message_disclosed :
  Examples.run (Examples.always (RestApi.Rejected Examples.refused))
  = (inr (text_result
            "Failed to fetch user data: request to https://jsonplaceholder.typicode.com/users/1 failed, reason: connect ECONNREFUSED 10.0.0.5:443"
            (Some true)),
     {| RestApi.calls := 3;
        RestApi.log :=
          [ request Sample.platform Examples.params; RestApi.SetTimeout 1000;
            request Sample.platform Examples.params; RestApi.SetTimeout 2000;
            request Sample.platform Examples.params ] |})
  /\ JS.includes "connect ECONNREFUSED 10.0.0.5:443"
       "Failed to fetch user data: request to https://jsonplaceholder.typicode.com/users/1 failed, reason: connect ECONNREFUSED 10.0.0.5:443"
     = true
  /\ Examples.run (Examples.always (RestApi.Rejected (Error "fetch failed")))
     = (inr (text_result "Failed to fetch user data: fetch failed" (Some true)),
        {| RestApi.calls := 3;
           RestApi.log :=
             [ request Sample.platform Examples.params; RestApi.SetTimeout 1000;
               request Sample.platform Examples.params; RestApi.SetTimeout 2000;
               request Sample.platform Examples.params ] |}).
Proof.
  repeat split; vm_compute; reflexivity.
Qed.

(** C8: whatever the network answers, an invocation completes normally with
    a result, never by a throw; the result has exactly one content item, of
    type "text"; it is decided by the answer to the last call made, one of
    the first three: when that answer is a valid record the result is its
    formatted text with no [isError], in every other case [isError] is
    true. *)
Theorem fetch_user_resolves
  (P : Platform) (params : RestApi.Params) (w : RestApi.World) :
  exists (result : ToolResult) (s : RestApi.Run) (n : nat),
    RestApi.fetch_user P params w RestApi.start = (inr result, s)
    /\ (exists t, content result = [ {| type := "text"; text := t |} ])
    /\ (n < RestApi.MAX_RETRIES)%nat
    /\ RestApi.calls s = S n
    /\ match attempt_outcome P (w n) with
       | Outcome.Success u => result = text_result (RestApi.formatUserData u) None
       | _ => isError result = Some true
       end.
Proof.
  destruct (retry_loop_returns P params w 2 0 RestApi.start eq_refl)
    as (result & s & n & E & B & C & T & R).
  exists result, s, n. rewrite fetch_user_eq. unfold RestApi.MAX_RETRIES in *.
  rewrite E. cbn [RestApi.calls RestApi.start] in B.
  repeat split; auto; lia.
Qed.

(** C9: whatever the network answers, the retry loop of an invocation ends by
    a [return] of one of its iterations and not by its exit: the handler
    returns the result of that iteration, and the result placed after the
    loop, [exhausted], is not produced. *)
Theorem loop_exit_unreachable
  (P : Platform) (params : RestApi.Params) (w : RestApi.World) :
  exists (result : ToolResult) (s : RestApi.Run),
    RestApi.retry_loop P params RestApi.MAX_RETRIES 0 w RestApi.start
    = (inr (Some result), s)
    /\ RestApi.fetch_user P params w RestApi.start = (inr result, s).
Proof.
  destruct (retry_loop_returns P params w 2 0 RestApi.start eq_refl)
    as (result & s & n & E & _).
  exists result, s. rewrite fetch_user_eq. unfold RestApi.MAX_RETRIES in *.
  rewrite E. split; reflexivity.
Qed.

(** ** More about the schemas *)

Lemma no_extra_keys (shape : list string) (fields : list (string * JSONValue)) :
  (forall key, In key (map fst fields) -> In key shape) ->
  filter (fun key => negb (existsb (String.eqb key) shape)) (map fst fields) = [].
Proof.
  intros H. induction fields as [|[k v] fields IH]; [reflexivity|].
  cbn [map fst filter].
  assert (existsb (String.eqb k) shape = true) as ->.
  { apply existsb_exists. exists k. split; [apply H; now left|apply String.eqb_refl]. }
  cbn [negb]. apply IH. intros key K. apply H. now right.
Qed.

Lemma nonempty_length (s : string) : s <> "" -> (Z.of_nat (String.length s) <? 1) = false.
Proof.
  destruct s; [contradiction|]. intros _. cbn [String.length]. apply Z.ltb_ge. lia.
Qed.

(** X1: [UserDataSchema] accepts a body, with the record [u], exactly when
    the body is an object that has no key outside the shape and whose
    fields have the types of the shape, hold the values of [u] and meet the
    checks of the schema. *)
Theorem UserDataSchema_accepts_iff (P : Platform) (rawData : JSONValue)
  (u : RestApi.UserData) :
  Zod.parse (RestApi.UserDataSchema P) rawData = inr u <-> conforms P rawData u.
Proof.
  split; [apply UserDataSchema_sound|].
  intros (fields & afields & cfields & -> & K & Hid & Nid & Lid & Hname & Nname
          & Husername & Nusername & Hemail & Cemail & Haddress & Hstreet & Hsuite
          & Hcity & Hzipcode & Czipcode & Hphone & Cphone & Hwebsite & Cwebsite
          & Hcompany & Hcname & HcatchPhrase & Hbs).
  unfold has_string in *.
  unfold Zod.parse, RestApi.UserDataSchema, RestApi.AddressSchema,
    RestApi.CompanySchema, Zod.object, Zod.field, Zod.shape_field.
  cbn [Zod.shape_parse Zod.shape_keys Zod.shape_of app].
  rewrite (no_extra_keys _ fields K).
  rewrite Hid, Hname, Husername, Hemail, Haddress, Hphone, Hwebsite, Hcompany.
  rewrite Hstreet, Hsuite, Hcity, Hzipcode, Hcname, HcatchPhrase, Hbs.
  unfold Zod.parse_number, Zod.parse_string.
  assert (ZodError.getParsedType (Some (JNum (RestApi.id u))) = ZodError.t_number) as ->.
  { destruct (RestApi.id u); try reflexivity. contradiction. }
  cbn [flat_map Zod.number_check Zod.string_check Zod.number Zod.positive Zod.string
       Zod.min Zod.email Zod.url Zod.regex app].
  rewrite Lid, (nonempty_length _ Nname), (nonempty_length _ Nusername), Cemail,
    Czipcode, Cphone, Cwebsite.
  cbn [app]. destruct u as [? ? ? ? [] ? ? []]. reflexivity.
Qed.

Lemma extra_key_kept (shape : list string) (keys : list string) (key : string) :
  In key keys -> ~ In key shape ->
  In key (filter (fun k => negb (existsb (String.eqb k) shape)) keys).
Proof.
  intros I N. apply filter_In. split; [exact I|].
  destruct (existsb (String.eqb key) shape) eqn:X; [|reflexivity].
  apply existsb_exists in X. destruct X as (k & K & Q).
  apply String.eqb_eq in Q. subst. contradiction.
Qed.

(** X2: a body with a key that the shape does not declare is rejected,
    whatever its other fields are: one of the issues, at the root path,
    lists the unknown keys, this one among them. *)
Theorem unknown_key_rejected (P : Platform) (fields : list (string * JSONValue))
  (key : string) :
  In key (map fst fields) ->
  ~ In key ["id"; "name"; "username"; "email"; "address"; "phone"; "website";
            "company"] ->
  exists errors keys,
    Zod.parse (RestApi.UserDataSchema P) (JObj fields) = inl (ZodError errors)
    /\ In key keys
    /\ In {| ZodError.issue := ZodError.unrecognized_keys keys;
             ZodError.path := [];
             ZodError.message :=
               "Unrecognized key(s) in object: " ++ ZodError.joinValues keys ", " |}
          errors.
Proof.
  intros I N.
  pose proof (extra_key_kept _ _ key I N) as K.
  remember (filter _ _) as keys eqn:E in K.
  destruct keys as [|k0 keys0]; [destruct K|].
  assert (exists x, In x (fst (RestApi.UserDataSchema P [] (Some (JObj fields))))
                    /\ x = ZodError.makeIssue [] (ZodError.unrecognized_keys (k0 :: keys0)) None)
    as (x & X & ->).
  { eexists. split; [|reflexivity].
    unfold RestApi.UserDataSchema, Zod.object.
    destruct (Zod.shape_parse _ fields []) as [issues v].
    cbn [Zod.shape_keys Zod.field Zod.shape_field Zod.shape_of app].
    rewrite <- E. cbn [fst]. apply in_or_app. right. now left. }
  apply parse_In in X. destruct X as (errors & Q & X).
  exists errors, (k0 :: keys0). repeat split; assumption.
Qed.

Lemma unknown_key_rejected_witness :
  exists errors keys,
    Zod.parse (RestApi.UserDataSchema Sample.platform)
      (JObj [ ("id", JNum Examples.one); ("admin", JBool true) ])
    = inl (ZodError errors)
    /\ In "admin" keys
    /\ In {| ZodError.issue := ZodError.unrecognized_keys keys;
             ZodError.path := [];
             ZodError.message :=
               "Unrecognized key(s) in object: " ++ ZodError.joinValues keys ", " |}
          errors.
Proof.
  apply (unknown_key_rejected Sample.platform
           [ ("id", JNum Examples.one); ("admin", JBool true) ] "admin").
  - simpl. auto.
  - simpl. intros H. repeat (destruct H as [H|H]; [discriminate H|]). exact H.
Defined.

Lemma get_property_skip (key k : string) (v : JSONValue)
  (l1 l2 : list (string * JSONValue)) :
  k <> key ->
  get_property key (l1 ++ (k, v) :: l2) = get_property key (l1 ++ l2).
Proof.
  intros N. induction l1 as [|[k1 v1] l1 IH]; cbn [app get_property].
  - apply String.eqb_neq in N. now rewrite N.
  - now rewrite IH.
Qed.

(** X3: the address sub-schema is not strict: a key that it does not declare,
    anywhere in the object, changes neither the issues nor the value. *)
Theorem nested_unknown_key_ignored (P : Platform) (path : list string)
  (l1 l2 : list (string * JSONValue)) (key : string) (value : JSONValue) :
  ~ In key ["street"; "suite"; "city"; "zipcode"] ->
  RestApi.AddressSchema P path (Some (JObj (l1 ++ (key, value) :: l2)))
  = RestApi.AddressSchema P path (Some (JObj (l1 ++ l2))).
Proof.
  intros N. unfold RestApi.AddressSchema, Zod.object, Zod.field, Zod.shape_field.
  cbn [Zod.shape_parse Zod.shape_of].
  rewrite !get_property_skip; [reflexivity|..]; intros ->; apply N; cbn; auto.
Qed.

Lemma nested_unknown_key_ignored_witness :
  RestApi.AddressSchema Sample.platform ["address"]
    (Some (JObj ([ ("street", JStr "Kulas Light") ]
                 ++ ("geo", JObj [ ("lat", JStr "-37.3159") ])
                 :: [ ("zipcode", JStr "92998-3874") ])))
  = RestApi.AddressSchema Sample.platform ["address"]
      (Some (JObj ([ ("street", JStr "Kulas Light") ]
                   ++ [ ("zipcode", JStr "92998-3874") ]))).
Proof.
  apply (nested_unknown_key_ignored Sample.platform ["address"]
           [ ("street", JStr "Kulas Light") ] [ ("zipcode", JStr "92998-3874") ]
           "geo" (JObj [ ("lat", JStr "-37.3159") ])).
  simpl. intros H. repeat (destruct H as [H|H]; [discriminate H|]). exact H.
Defined.

Lemma required_issue (P : Platform) (fields : list (string * JSONValue))
  (key : string) (expected : ZodError.ZodParsedType) :
  In (ZodError.makeIssue [key] (ZodError.invalid_type expected ZodError.t_undefined)
        None)
     (fst (RestApi.UserDataSchema P [] (Some (JObj fields)))) ->
  exists errors x,
    Zod.parse (RestApi.UserDataSchema P) (JObj fields) = inl (ZodError errors)
    /\ In x errors
    /\ ZodError.path x = [key]
    /\ ZodError.message x = "Required".
Proof.
  intros H. apply parse_In in H. destruct H as (errors & E & I).
  exists errors. eexists. repeat split; [exact E|exact I|reflexivity..].
Qed.

(** X17: a body that lacks one of the eight keys of the shape is rejected,
    whatever else it holds: one of the issues has the path of that key and
    the message "Required". *)
Theorem missing_key_required (P : Platform) (fields : list (string * JSONValue))
  (key : string) :
  In key ["id"; "name"; "username"; "email"; "address"; "phone"; "website";
          "company"] ->
  get_property key fields = None ->
  exists errors x,
    Zod.parse (RestApi.UserDataSchema P) (JObj fields) = inl (ZodError errors)
    /\ In x errors
    /\ ZodError.path x = [key]
    /\ ZodError.message x = "Required".
Proof.
  intros I E.
  repeat (destruct I as [<-|I]; [|]); [..|destruct I].
  - apply (required_issue P fields "id" ZodError.t_number).
    unfold RestApi.UserDataSchema. apply In_object.
    do 7 apply In_field_before. apply In_field_here. rewrite E. left. reflexivity.
  - apply (required_issue P fields "name" ZodError.t_string).
    unfold RestApi.UserDataSchema. apply In_object.
    do 6 apply In_field_before. apply In_field_here. rewrite E. left. reflexivity.
  - apply (required_issue P fields "username" ZodError.t_string).
    unfold RestApi.UserDataSchema. apply In_object.
    do 5 apply In_field_before. apply In_field_here. rewrite E. left. reflexivity.
  - apply (required_issue P fields "email" ZodError.t_string).
    unfold RestApi.UserDataSchema. apply In_object.
    do 4 apply In_field_before. apply In_field_here. rewrite E. left. reflexivity.
  - apply (required_issue P fields "address" ZodError.t_object).
    unfold RestApi.UserDataSchema. apply In_object.
    do 3 apply In_field_before. apply In_field_here. rewrite E. left. reflexivity.
  - apply (required_issue P fields "phone" ZodError.t_string).
    unfold RestApi.UserDataSchema. apply In_object.
    do 2 apply In_field_before. apply In_field_here. rewrite E. left. reflexivity.
  - apply (required_issue P fields "website" ZodError.t_string).
    unfold RestApi.UserDataSchema. apply In_object.
    do 1 apply In_field_before. apply In_field_here. rewrite E. left. reflexivity.
  - apply (required_issue P fields "company" ZodError.t_object).
    unfold RestApi.UserDataSchema. apply In_object.
    apply In_field_here. rewrite E. left. reflexivity.
Qed.

Lemma missing_key_required_witness :
  exists errors x,
    Zod.parse (RestApi.UserDataSchema Sample.platform) (JObj []) = inl (ZodError errors)
    /\ In x errors
    /\ ZodError.path x = ["company"]
    /\ ZodError.message x = "Required".
Proof.
  apply (missing_key_required Sample.platform [] "company").
  - simpl. auto 10.
  - reflexivity.
Defined.

(** ** More about the helpers of rest-api.ts *)

Lemma append_assoc (a b c : string) : (a ++ b) ++ c = a ++ b ++ c.
Proof.
  induction a as [|x a IH]; [reflexivity|].
  change ((String x a ++ b) ++ c) with (String x ((a ++ b) ++ c)).
  now rewrite IH.
Qed.

(** X6: [trim()] removes exactly the line feed that starts the template and
    the one that ends it, whatever the fields hold (white space at the start
    of the name or at the end of the catch phrase stays); the text starts
    with "User Profile:". *)
Theorem trim_removes_two_line_feeds (u : RestApi.UserData) :
  RestApi.formatUserData_template u
  = JS.LF ++ RestApi.formatUserData u ++ JS.LF
  /\ String.prefix "User Profile:" (RestApi.formatUserData u) = true.
Proof.
  rewrite formatUserData_eq. split.
  - unfold RestApi.formatUserData_template.
    rewrite !append_assoc. reflexivity.
  - apply prefix_app.
Qed.

Lemma append_nil_r (s : string) : s ++ "" = s.
Proof. induction s as [|c s IH]; [reflexivity|]. cbn. now rewrite IH. Qed.

Lemma digits_spec (n : nat) (s rest : string) :
  RestApi.digits n s = Some rest
  <-> exists a, s = a ++ rest /\ String.length a = n
                /\ JS.string_forallb JS.is_digit a = true.
Proof.
  revert s. induction n as [|n IH]; intros s; cbn [RestApi.digits].
  - split.
    + intros [= ->]. exists "". now repeat split.
    + intros (a & -> & L & _). destruct a; [reflexivity|discriminate].
  - destruct s as [|c s].
    + split; [discriminate|].
      intros (a & E & L & _). destruct a; discriminate.
    + destruct (JS.is_digit c) eqn:D.
      * rewrite IH. split.
        -- intros (a & -> & L & F). exists (String c a). cbn. rewrite D, F, L.
           now repeat split.
        -- intros (a & E & L & F). destruct a as [|c' a]; [discriminate|].
           cbn in E, L, F. injection E as -> ->. injection L as L.
           apply andb_prop in F. exists a. now repeat split.
      * split; [discriminate|].
        intros (a & E & L & F). destruct a as [|c' a]; [discriminate|].
        cbn in E, F. injection E as -> ->. rewrite D in F. discriminate.
Qed.

Lemma dash_only (c : ascii) (x y : bool) :
  match c with "-"%char => x | _ => y end = (if Ascii.eqb c "-" then x else y).
Proof.
  destruct c as [[] [] [] [] [] [] [] []]; reflexivity.
Qed.

(** X4: the zipcode expression accepts exactly the strings of five decimal
    digits and the strings of five digits, a hyphen and four digits. *)
Theorem zipcode_regex_accepts_iff (s : string) :
  RestApi.zipcode_regex s = true
  <-> (String.length s = 5%nat /\ JS.string_forallb JS.is_digit s = true)
      \/ (exists a b,
            s = a ++ "-" ++ b
            /\ String.length a = 5%nat /\ String.length b = 4%nat
            /\ JS.string_forallb JS.is_digit a = true
            /\ JS.string_forallb JS.is_digit b = true).
Proof.
  unfold RestApi.zipcode_regex. split.
  - destruct (RestApi.digits 5 s) as [[|c rest]|] eqn:D; [| |discriminate].
    + intros _. left. apply digits_spec in D. destruct D as (a & -> & L & F).
      now rewrite append_nil_r.
    + rewrite dash_only.
      destruct (Ascii.eqb_spec c "-") as [->|]; [|discriminate].
      destruct (RestApi.digits 4 rest) as [[|]|] eqn:D4; try discriminate.
      intros _. right.
      apply digits_spec in D, D4.
      destruct D as (a & -> & L & F), D4 as (b & -> & Lb & Fb).
      exists a, b. rewrite append_nil_r. now repeat split.
  - intros [[L F]|(a & b & -> & La & Lb & Fa & Fb)].
    + assert (RestApi.digits 5 s = Some "") as ->; [|reflexivity].
      apply digits_spec. exists s. now rewrite append_nil_r.
    + assert (RestApi.digits 5 (a ++ "-" ++ b) = Some ("-" ++ b)) as ->.
      { apply digits_spec. now exists a. }
      cbn [append].
      assert (RestApi.digits 4 b = Some "") as ->; [|reflexivity].
      apply digits_spec. exists b. now rewrite append_nil_r.
Qed.

Lemma alpha_not_phone (c : ascii) : JS.is_alpha c = true -> RestApi.phone_char c = false.
Proof.
  destruct c as [[] [] [] [] [] [] [] []]; try reflexivity; discriminate.
Qed.

Lemma forallb_member (p : ascii -> bool) (s : string) (c : ascii) :
  In c (list_ascii_of_string s) -> p c = false -> JS.string_forallb p s = false.
Proof.
  induction s as [|d s IH]; cbn; [intros []|].
  intros [->|I] F.
  - now rewrite F.
  - rewrite (IH I F). apply andb_false_r.
Qed.

(** X5: a phone number that contains a letter anywhere, such as the mark of
    an extension, is rejected by the phone expression. *)
Theorem phone_with_letter_rejected (s : string) (c : ascii) :
  In c (list_ascii_of_string s) ->
  JS.is_alpha c = true ->
  RestApi.phone_regex s = false.
Proof.
  intros I A. unfold RestApi.phone_regex. destruct s; [reflexivity|].
  apply (forallb_member _ _ c I). now apply alpha_not_phone.
Qed.

Lemma phone_with_letter_rejected_witness :
  RestApi.phone_regex "1-770-736-8031 x56442" = false.
Proof.
  apply (phone_with_letter_rejected "1-770-736-8031 x56442" "x"%char).
  - simpl. auto 20.
  - reflexivity.
Defined.

(** ** More about the retry loop *)

Lemma decided_at (P : Platform) (params : RestApi.Params) (w : RestApi.World)
  (k : nat) :
  (k < RestApi.MAX_RETRIES)%nat ->
  (forall i, (i < k)%nat -> retried P (w i)) ->
  k = (RestApi.MAX_RETRIES - 1)%nat \/ terminal P (w k) ->
  RestApi.fetch_user P params w RestApi.start
  = (inr (final_result P params (attempt_outcome P (w k))),
     {| RestApi.calls := S k; RestApi.log := attempts_log P params k |}).
Proof.
  unfold RestApi.MAX_RETRIES. intros L R T.
  destruct k as [|[|[|k]]]; [| | |lia].
  - destruct T as [T|[T|[u T]]]; [discriminate| |]; run_attempts; reflexivity.
  - pose proof (R 0%nat ltac:(lia)) as [R0|[e0 R0]];
      (destruct T as [T|[T|[u T]]]; [discriminate| |]); run_attempts; reflexivity.
  - clear T.
    pose proof (R 0%nat ltac:(lia)) as [R0|[e0 R0]];
      pose proof (R 1%nat ltac:(lia)) as [R1|[e1 R1]];
      destruct (attempt_outcome P (w 2%nat)) eqn:O; run_attempts; reflexivity.
Qed.

Lemma retried_or_terminal (P : Platform) (o : RestApi.FetchOutcome) :
  retried P o \/ terminal P o.
Proof.
  unfold retried, terminal. destruct (attempt_outcome P o); eauto.
Qed.

(** X7: the first answer that is not retried decides the result. When the
    answers to the calls before call [k] are all retried (rate limit or
    raised failure) and the answer to call [k] is an absent record or a
    valid record, or [k] is the last attempt, the handler returns the result
    of the class of that answer after exactly [k + 1] calls, with a wait of
    [getRetryDelay i] after each call [i < k] and none after call [k]. *)
Theorem deciding_answer (P : Platform) (params : RestApi.Params)
  (w : RestApi.World) (k : nat) :
  (k < RestApi.MAX_RETRIES)%nat ->
  (forall i, (i < k)%nat -> retried P (w i)) ->
  k = (RestApi.MAX_RETRIES - 1)%nat \/ terminal P (w k) ->
  RestApi.fetch_user P params w RestApi.start
  = (inr (final_result P params (attempt_outcome P (w k))),
     {| RestApi.calls := S k; RestApi.log := attempts_log P params k |}).
Proof. apply decided_at. Qed.

Lemma deciding_answer_witness :
  RestApi.fetch_user Sample.platform Examples.params
    (Examples.answers [ RestApi.Rejected (Error "fetch failed") ]
       (RestApi.Resolved (Examples.status_response 404 "Not Found")))
    RestApi.start
  = (inr (text_result "User with ID 1 not found" (Some true)),
     {| RestApi.calls := 2;
        RestApi.log :=
          [ request Sample.platform Examples.params; RestApi.SetTimeout 1000;
            request Sample.platform Examples.params ] |}).
Proof.
  apply (deciding_answer Sample.platform Examples.params
           (Examples.answers [ RestApi.Rejected (Error "fetch failed") ]
              (RestApi.Resolved (Examples.status_response 404 "Not Found")))
           1%nat).
  - unfold RestApi.MAX_RETRIES. lia.
  - intros i I. assert (i = 0%nat) as -> by lia.
    right. eexists. reflexivity.
  - right. left. reflexivity.
Defined.

(** X8: whatever the network answers, an invocation makes one, two or three
    calls, all of them the same request, waits [getRetryDelay i] after each
    call but the last and never after the last, so 0, 1000 or 3000 ms in
    total, and its result is the one of the class of the last answer
    received: every earlier answer was retried, and the last one is an
    absent record, a valid record, or the answer to the third call. *)
Theorem effects_bounded (P : Platform) (params : RestApi.Params)
  (w : RestApi.World) :
  exists k : nat,
    (k < RestApi.MAX_RETRIES)%nat
    /\ (forall i, (i < k)%nat -> retried P (w i))
    /\ (k = (RestApi.MAX_RETRIES - 1)%nat \/ terminal P (w k))
    /\ RestApi.fetch_user P params w RestApi.start
       = (inr (final_result P params (attempt_outcome P (w k))),
          {| RestApi.calls := S k; RestApi.log := attempts_log P params k |})
    /\ total_wait (attempts_log P params k)
       = RestApi.getRetryDelay k - RestApi.INITIAL_RETRY_DELAY
    /\ total_wait (attempts_log P params k) <= 3000.
Proof.
  assert (exists k : nat,
             (k < RestApi.MAX_RETRIES)%nat
             /\ (forall i, (i < k)%nat -> retried P (w i))
             /\ (k = (RestApi.MAX_RETRIES - 1)%nat \/ terminal P (w k)))
    as (k & L & R & T).
  { unfold RestApi.MAX_RETRIES.
    destruct (retried_or_terminal P (w 0%nat)) as [R0|T0].
    - destruct (retried_or_terminal P (w 1%nat)) as [R1|T1].
      + exists 2%nat. repeat split; [lia| |now left].
        intros [|[|i]] I; [assumption..|lia].
      + exists 1%nat. repeat split; [lia| |now right].
        intros [|i] I; [assumption|lia].
    - exists 0%nat. repeat split; [lia| |now right]. intros i I. lia. }
  exists k. repeat split; try assumption.
  - now apply decided_at.
  - unfold RestApi.MAX_RETRIES in L. destruct k as [|[|[|k]]]; [reflexivity..|lia].
  - unfold RestApi.MAX_RETRIES in L.
    destruct k as [|[|[|k]]]; [cbn; lia..|lia].
Qed.

(** ** The first version of the handler *)

Section SimpleFacts.
Variable P : Platform.
Variable stringify : RestApi.UserData -> string.
Variable ZodError_message : list ZodError.ZodIssue -> string.
Variable params : RestApi.Params.

(** X9: the first version makes exactly one call, without headers, and never
    waits, whatever the network answers; it completes normally with one text
    item; [isError] is absent exactly when the answer is an OK response whose
    body the schema accepts, and then the text is the serialized record;
    otherwise [isError] is true. *)
Theorem simple_single_call (w : RestApi.World) :
  exists result : ToolResult,
    RestApiSimple.fetch_user P stringify ZodError_message params w RestApi.start
    = (inr result, {| RestApi.calls := 1; RestApi.log := [ RestApiSimple.request P params ] |})
    /\ (exists t, content result = [ {| type := "text"; text := t |} ])
    /\ (isError result = None \/ isError result = Some true)
    /\ (isError result = None <->
        exists response rawData userData,
          w 0%nat = RestApi.Resolved response
          /\ RestApi.ok response = true
          /\ RestApi.json response = inr rawData
          /\ Zod.parse (RestApiSimple.UserDataSchema P) rawData = inr userData
          /\ result = text_result (stringify userData) None).
Proof.
  unfold RestApiSimple.fetch_user, RestApiSimple.fetch_user_try,
    RestApiSimple.fetch_user_catch, RestApi.fetch, RestApi.completion, RestApi.start,
    RestApiSimple.request, text_result.
  cbn [catch bind ret raise RestApi.Monad_M RestApi.MonadExc_M RestApi.calls
       RestApi.log app].
  destruct (w 0%nat) as [reason|response] eqn:W.
  - destruct reason; eexists; (split; [reflexivity|]); cbn [content isError];
      (split; [eexists; reflexivity|]); (split; [now right|]);
      (split; [discriminate|]); intros (r & d & u & [=] & _).
  - destruct (RestApi.ok response) eqn:K; cbn [negb].
    + destruct (RestApi.json response) as [e|rawData] eqn:J.
      * destruct e; eexists; (split; [reflexivity|]); cbn [content isError];
          (split; [eexists; reflexivity|]); (split; [now right|]);
          (split; [discriminate|]); intros (r & d & u & [= <-] & _ & J' & _);
          congruence.
      * destruct (Zod.parse (RestApiSimple.UserDataSchema P) rawData) as [e|userData]
          eqn:Z.
        -- destruct e; eexists; (split; [reflexivity|]); cbn [content isError];
             (split; [eexists; reflexivity|]); (split; [now right|]);
             (split; [discriminate|]);
             intros (r & d & u & [= <-] & _ & J' & Z' & _); congruence.
        -- eexists; (split; [reflexivity|]); cbn [content isError];
             (split; [eexists; reflexivity|]); (split; [now left|]).
           split; [|reflexivity]. intros _. now exists response, rawData, userData.
    + destruct (RestApi.status response =? 404); eexists; (split; [reflexivity|]);
        cbn [content isError]; (split; [eexists; reflexivity|]);
        (split; [now right|]); (split; [discriminate|]);
        intros (r & d & u & [= <-] & K' & _); congruence.
Qed.

(** X10: a response that is not OK and not 404 (a rate limit, a server error)
    ends the first version at once, with the status in the text: it is
    neither retried nor raised as a failure. *)
Theorem simple_status_not_retried (w : RestApi.World) (response : RestApi.Response) :
  w 0%nat = RestApi.Resolved response ->
  RestApi.ok response = false ->
  RestApi.status response <> 404 ->
  RestApiSimple.fetch_user P stringify ZodError_message params w RestApi.start
  = (inr (text_result
            ("API request failed with status "
             ++ JS.Z_to_string (RestApi.status response)) (Some true)),
     {| RestApi.calls := 1; RestApi.log := [ RestApiSimple.request P params ] |}).
Proof.
  intros W K N. apply Z.eqb_neq in N.
  unfold RestApiSimple.fetch_user, RestApiSimple.fetch_user_try, RestApi.fetch,
    RestApi.start.
  cbn [catch bind ret raise RestApi.Monad_M RestApi.MonadExc_M RestApi.calls
       RestApi.log app].
  rewrite W, K, N. reflexivity.
Qed.

(** X11: when the first answer is a 404 response, the two versions of the
    handler return the same result, each after one call. *)
Theorem versions_agree_on_absent (w : RestApi.World) (response : RestApi.Response) :
  w 0%nat = RestApi.Resolved response ->
  RestApi.status response = 404 ->
  RestApi.ok response = false ->
  fst (RestApiSimple.fetch_user P stringify ZodError_message params w RestApi.start)
  = fst (RestApi.fetch_user P params w RestApi.start)
  /\ RestApi.calls
       (snd (RestApiSimple.fetch_user P stringify ZodError_message params w
               RestApi.start)) = 1%nat
  /\ RestApi.calls (snd (RestApi.fetch_user P params w RestApi.start)) = 1%nat.
Proof.
  intros W S K.
  assert (attempt_outcome P (w 0%nat) = Outcome.NotFound) as O.
  { apply outcome_absent. now exists response. }
  rewrite fetch_user_eq. unfold RestApi.MAX_RETRIES, RestApi.start.
  rewrite retry_loop_S. unfold iteration_spec.
  cbn [RestApi.calls RestApi.log app]. rewrite O.
  unfold RestApiSimple.fetch_user, RestApiSimple.fetch_user_try, RestApi.fetch.
  cbn [catch bind ret raise RestApi.Monad_M RestApi.MonadExc_M RestApi.calls
       RestApi.log app].
  rewrite W, K, S. cbn. repeat split.
Qed.

End SimpleFacts.

Lemma simple_status_not_retried_witness :
  RestApiSimple.fetch_user Sample.platform MoreExamples.stringify
    MoreExamples.ZodError_message Examples.params
    (Examples.always Examples.too_many) RestApi.start
  = (inr (text_result "API request failed with status 429" (Some true)),
     {| RestApi.calls := 1;
        RestApi.log := [ RestApiSimple.request Sample.platform Examples.params ] |}).
Proof.
  apply (simple_status_not_retried Sample.platform MoreExamples.stringify
           MoreExamples.ZodError_message Examples.params
           (Examples.always Examples.too_many)
           (Examples.status_response 429 "Too Many Requests")).
  - reflexivity.
  - reflexivity.
  - discriminate.
Defined.

Lemma versions_agree_on_absent_witness :
  fst (RestApiSimple.fetch_user Sample.platform MoreExamples.stringify
         MoreExamples.ZodError_message Examples.params
         (Examples.always
            (RestApi.Resolved (Examples.status_response 404 "Not Found")))
         RestApi.start)
  = fst (RestApi.fetch_user Sample.platform Examples.params
           (Examples.always
              (RestApi.Resolved (Examples.status_response 404 "Not Found")))
           RestApi.start)
  /\ RestApi.calls
       (snd (RestApiSimple.fetch_user Sample.platform MoreExamples.stringify
               MoreExamples.ZodError_message Examples.params
               (Examples.always
                  (RestApi.Resolved (Examples.status_response 404 "Not Found")))
               RestApi.start)) = 1%nat
  /\ RestApi.calls
       (snd (RestApi.fetch_user Sample.platform Examples.params
               (Examples.always
                  (RestApi.Resolved (Examples.status_response 404 "Not Found")))
               RestApi.start)) = 1%nat.
Proof.
  apply (versions_agree_on_absent Sample.platform MoreExamples.stringify
           MoreExamples.ZodError_message Examples.params
           (Examples.always
              (RestApi.Resolved (Examples.status_response 404 "Not Found")))
           (Examples.status_response 404 "Not Found")); reflexivity.
Defined.

(** X12: the schema of the resilient version refines the one of the first
    version: a body that it accepts is accepted by the first version too,
    with the same record. *)
Theorem strict_schema_refines_simple (P : Platform) (rawData : JSONValue)
  (u : RestApi.UserData) :
  Zod.parse (RestApi.UserDataSchema P) rawData = inr u ->
  Zod.parse (RestApiSimple.UserDataSchema P) rawData = inr u.
Proof.
  intros H. apply UserDataSchema_sound in H.
  destruct H as (fields & afields & cfields & -> & K & Hid & Nid & Lid & Hname & Nname
          & Husername & Nusername & Hemail & Cemail & Haddress & Hstreet & Hsuite
          & Hcity & Hzipcode & Czipcode & Hphone & Cphone & Hwebsite & Cwebsite
          & Hcompany & Hcname & HcatchPhrase & Hbs).
  unfold has_string in *.
  unfold Zod.parse, RestApiSimple.UserDataSchema, RestApiSimple.AddressSchema,
    RestApiSimple.CompanySchema, Zod.object, Zod.field, Zod.shape_field.
  cbn [Zod.shape_parse Zod.shape_keys Zod.shape_of app].
  rewrite Hid, Hname, Husername, Hemail, Haddress, Hphone, Hwebsite, Hcompany.
  rewrite Hstreet, Hsuite, Hcity, Hzipcode, Hcname, HcatchPhrase, Hbs.
  unfold Zod.parse_number, Zod.parse_string.
  assert (ZodError.getParsedType (Some (JNum (RestApi.id u))) = ZodError.t_number) as ->.
  { destruct (RestApi.id u); try reflexivity. contradiction. }
  cbn [flat_map Zod.number Zod.string app].
  destruct u as [? ? ? ? [] ? ? []]. reflexivity.
Qed.

Lemma strict_schema_refines_simple_witness :
  Zod.parse (RestApiSimple.UserDataSchema Sample.platform) Examples.user_json
  = inr Examples.user.
Proof.
  apply (strict_schema_refines_simple Sample.platform Examples.user_json
           Examples.user).
  vm_compute. reflexivity.
Defined.

Lemma number_type (n : JS.number) :
  n <> S754_nan -> ZodError.getParsedType (Some (JNum n)) = ZodError.t_number.
Proof. destruct n; try reflexivity. contradiction. Qed.

(** X13: the parameter schema of the first version accepts exactly the
    objects whose [userId] is a number above 0; it does not ask for an
    integer. *)
Theorem simple_FetchUserSchema_accepts_iff (P : Platform) (rawData : JSONValue)
  (params : RestApi.Params) :
  Zod.parse RestApiSimple.FetchUserSchema rawData = inr params
  <-> exists fields,
        rawData = JObj fields
        /\ get_property "userId" fields = Some (JNum (RestApi.userId params))
        /\ RestApi.userId params <> S754_nan
        /\ JS.le (RestApi.userId params) (JS.of_Z 0) = false.
Proof.
  split.
  - intros H. apply parse_inr in H. unfold RestApiSimple.FetchUserSchema in H.
    apply object_inv in H. destruct H as (fields & [= ->] & H & _).
    apply field_inv in H. destruct H as (f & userId & H & Hid & ->).
    cbn [Zod.shape_of Zod.shape_parse] in H. injection H as <-.
    apply parse_number_inv in Hid. destruct Hid as (E & N & C).
    specialize (C _ (or_introl eq_refl)). cbn [Zod.number_check] in C.
    destruct (JS.le userId (JS.of_Z 0)) eqn:L; [discriminate|].
    exists fields. cbn [RestApi.userId]. now repeat split.
  - intros (fields & -> & E & N & L).
    unfold Zod.parse, RestApiSimple.FetchUserSchema, Zod.object, Zod.field,
      Zod.shape_field.
    cbn [Zod.shape_parse Zod.shape_keys Zod.shape_of app].
    rewrite E. unfold Zod.parse_number. rewrite (number_type _ N).
    cbn [flat_map Zod.number_check Zod.number Zod.positive app].
    rewrite L. destruct params. reflexivity.
Qed.

(** X14: [CalculatorSchema] accepts exactly the objects whose [a] and [b] are
    numbers (NaN is none); other keys are ignored, and the parameters are the
    two numbers as they are. *)
Theorem CalculatorSchema_accepts_iff (rawData : JSONValue)
  (params : Calculator.Params) :
  Zod.parse CalculatorSchema.CalculatorSchema rawData = inr params
  <-> exists fields,
        rawData = JObj fields
        /\ get_property "a" fields = Some (JNum (Calculator.a params))
        /\ Calculator.a params <> S754_nan
        /\ get_property "b" fields = Some (JNum (Calculator.b params))
        /\ Calculator.b params <> S754_nan.
Proof.
  split.
  - intros H. apply parse_inr in H. unfold CalculatorSchema.CalculatorSchema in H.
    apply object_inv in H. destruct H as (fields & [= ->] & H & _).
    apply field_inv in H. destruct H as (f2 & b & H & Hb & ->).
    apply field_inv in H. destruct H as (f1 & a & H & Ha & ->).
    cbn [Zod.shape_of Zod.shape_parse] in H. injection H as <-.
    apply parse_number_inv in Ha, Hb.
    destruct Ha as (Ea & Na & _), Hb as (Eb & Nb & _).
    exists fields. cbn. now repeat split.
  - intros (fields & -> & Ea & Na & Eb & Nb).
    unfold Zod.parse, CalculatorSchema.CalculatorSchema, Zod.object, Zod.field,
      Zod.shape_field.
    cbn [Zod.shape_parse Zod.shape_keys Zod.shape_of app].
    rewrite Ea, Eb. unfold Zod.parse_number.
    rewrite (number_type _ Na), (number_type _ Nb).
    destruct params. reflexivity.
Qed.

(** ** The start command *)

Lemma or_default_nonempty (s d : string) :
  s <> "" -> Smithery.or_default (Some s) d = s.
Proof. destruct s; [contradiction|reflexivity]. Qed.

Lemma Z_to_string_nonempty (z : Z) : JS.Z_to_string z <> "".
Proof.
  unfold JS.Z_to_string. destruct (Z.to_int z) as [d|d]; cbn.
  - destruct d; discriminate.
  - discriminate.
Qed.

Lemma Sample_NumberToString_nonempty (n : JS.number) :
  NumberToString Sample.platform n <> "".
Proof.
  cbn [NumberToString Sample.platform]. unfold Sample.NumberToString.
  destruct n as [s|[]| |s m e]; try discriminate;
    (destruct (Sample.integer_value _) as [z|]; [|discriminate]);
    (destruct (Z.abs z <? 2 ^ 53); [apply Z_to_string_nonempty|discriminate]).
Qed.

(** X16: the defaults of the start command apply only to what the
    configuration leaves out. An explicit [enabled: false] is passed as
    "false" and not replaced by the default "true"; an explicit
    [maxRetries], of any value, is passed as the number prints and not
    replaced by the default "3" (a number never prints as the empty
    string). *)
Theorem commandFunction_defaults (P : Platform) (config : Smithery.Config) :
  (forall n, NumberToString P n <> "") ->
  let e := Smithery.env (Smithery.commandFunction P config) in
  Smithery.getenv "NODE_ENV" e = Some "production"
  /\ Smithery.getenv "CALCULATOR_ENABLED" e
     = Some match Smithery.optional (Smithery.calculator config)
                    Smithery.calculator_enabled with
            | Some false => "false"
            | _ => "true"
            end
  /\ Smithery.getenv "REST_API_ENABLED" e
     = Some match Smithery.optional (Smithery.restApi config)
                    Smithery.restApi_enabled with
            | Some false => "false"
            | _ => "true"
            end
  /\ Smithery.getenv "REST_API_MAX_RETRIES" e
     = Some match Smithery.optional (Smithery.restApi config) Smithery.maxRetries with
            | Some n => NumberToString P n
            | None => "3"
            end.
Proof.
  intros N. cbn. repeat split.
  - destruct (Smithery.optional _ Smithery.calculator_enabled) as [[]|]; reflexivity.
  - destruct (Smithery.optional _ Smithery.restApi_enabled) as [[]|]; reflexivity.
  - destruct (Smithery.optional _ Smithery.maxRetries) as [n|]; [|reflexivity].
    cbn [Smithery.optional_toString].
    now rewrite (or_default_nonempty _ _ (N n)).
Qed.

Lemma commandFunction_defaults_witness :
  Smithery.getenv "NODE_ENV"
    (Smithery.env (Smithery.commandFunction Sample.platform MoreExamples.config))
  = Some "production"
  /\ Smithery.getenv "CALCULATOR_ENABLED"
       (Smithery.env (Smithery.commandFunction Sample.platform MoreExamples.config))
     = Some "false"
  /\ Smithery.getenv "REST_API_ENABLED"
       (Smithery.env (Smithery.commandFunction Sample.platform MoreExamples.config))
     = Some "true"
  /\ Smithery.getenv "REST_API_MAX_RETRIES"
       (Smithery.env (Smithery.commandFunction Sample.platform MoreExamples.config))
     = Some "5".
Proof.
  apply (commandFunction_defaults Sample.platform MoreExamples.config).
  apply Sample_NumberToString_nonempty.
Defined.

(** ** Sums of integers in binary64 *)

Lemma digits2_size (p : positive) : digits2_pos p = Pos.size p.
Proof. induction p; cbn; now rewrite ?IHp. Qed.

Lemma iter_xO_mul (m p : positive) : Zpos (Pos.iter xO m p) = Zpos m * 2 ^ Zpos p.
Proof.
  rewrite <- Z.shiftl_mul_pow2 by lia. cbn [Z.shiftl].
  apply (Pos.iter_swap_gen _ _ Zpos xO (Z.mul 2)). reflexivity.
Qed.

Lemma shl_mul (m : positive) (k : Z) : 0 <= k -> Zpos (shl m k) = Zpos m * 2 ^ k.
Proof.
  destruct k as [|p|p]; cbn [shl]; intros H; [lia| |lia]. apply iter_xO_mul.
Qed.

Lemma digits_iter_xO (m p : positive) :
  Zpos (digits2_pos (Pos.iter xO m p)) = Zpos (digits2_pos m) + Zpos p.
Proof.
  induction p using Pos.peano_ind.
  - cbn. lia.
  - rewrite Pos.iter_succ. cbn [digits2_pos]. lia.
Qed.

Lemma digits_shl (m : positive) (k : Z) :
  0 <= k -> Zpos (digits2_pos (shl m k)) = Zpos (digits2_pos m) + k.
Proof.
  destruct k as [|p|p]; cbn [shl]; intros H; [lia| |lia]. apply digits_iter_xO.
Qed.

Lemma digits_bound (m : positive) : Zpos m < 2 ^ 53 -> Zpos (digits2_pos m) <= 53.
Proof.
  intros H. rewrite digits2_size.
  pose proof (Pos.size_le m) as L.
  apply Pos2Z.pos_le_pos in L. rewrite Pos2Z.inj_pow in L.
  change (Zpos m~0) with (2 * Zpos m) in L.
  destruct (Z.le_gt_cases (Zpos (Pos.size m)) 53) as [|G]; [assumption|].
  assert (2 ^ 54 <= 2 ^ Zpos (Pos.size m)) by (apply Z.pow_le_mono_r; lia).
  lia.
Qed.

Lemma shl_succ (m : positive) (k : Z) : 0 <= k -> shl m (k + 1) = xO (shl m k).
Proof.
  destruct k as [|p|p]; intros H; [reflexivity| |lia].
  cbn [Z.add shl]. rewrite Pos.add_1_r. apply Pos.iter_succ.
Qed.

Lemma shl_shl (m : positive) (j i : Z) :
  0 <= j -> 0 <= i -> shl (shl m j) i = shl m (j + i).
Proof.
  intros J I. apply Pos2Z.inj. rewrite !shl_mul by lia.
  rewrite Z.pow_add_r by lia. lia.
Qed.

Lemma shr_1_shl (m : positive) (k : Z) :
  1 <= k ->
  shr_1 {| shr_m := Zpos (shl m k); shr_r := false; shr_s := false |}
  = {| shr_m := Zpos (shl m (k - 1)); shr_r := false; shr_s := false |}.
Proof.
  intros K. replace k with ((k - 1) + 1) at 1 by lia.
  rewrite shl_succ by lia. reflexivity.
Qed.

Lemma iter_shr_1_shl (q : positive) :
  forall (m : positive) (k : Z),
    Zpos q <= k ->
    iter_pos shr_1 q {| shr_m := Zpos (shl m k); shr_r := false; shr_s := false |}
    = {| shr_m := Zpos (shl m (k - Zpos q)); shr_r := false; shr_s := false |}.
Proof.
  induction q as [q IH|q IH|]; intros m k K; cbn [iter_pos].
  - rewrite shr_1_shl by lia. rewrite IH by lia. rewrite IH by lia.
    f_equal. f_equal. f_equal. lia.
  - rewrite IH by lia. rewrite IH by lia. f_equal. f_equal. f_equal. lia.
  - apply shr_1_shl. lia.
Qed.

Lemma fexp_small (d : Z) : 1 <= d -> fexp 53 1024 d = d - 53.
Proof. intros H. unfold fexp, emin. lia. Qed.

Lemma round_aux_canon (s : bool) (v : positive) :
  Zpos v < 2 ^ 53 ->
  binary_round_aux 53 1024 s (Zpos (shl v (53 - Zpos (digits2_pos v))))
    (Zpos (digits2_pos v) - 53) loc_Exact
  = canon s v.
Proof.
  intros V. pose proof (digits_bound v V) as D.
  unfold binary_round_aux, shr_fexp. cbn [Zdigits2 shr_record_of_loc].
  rewrite digits_shl by lia.
  replace (Zpos (digits2_pos v) + (53 - Zpos (digits2_pos v))
           + (Zpos (digits2_pos v) - 53)) with (Zpos (digits2_pos v)) by lia.
  rewrite fexp_small by lia. rewrite Z.sub_diag. cbn [shr shr_m loc_of_shr_record
    round_nearest_even Zdigits2 shr_record_of_loc].
  rewrite digits_shl by lia.
  replace (Zpos (digits2_pos v) + (53 - Zpos (digits2_pos v))
           + (Zpos (digits2_pos v) - 53)) with (Zpos (digits2_pos v)) by lia.
  rewrite fexp_small by lia. rewrite Z.sub_diag. cbn [shr shr_m].
  assert ((Zpos (digits2_pos v) - 53 <=? 1024 - 53) = true) as -> by (apply Z.leb_le; lia).
  reflexivity.
Qed.

Lemma round_scaled (s : bool) (v : positive) (j : Z) :
  Zpos v < 2 ^ 53 -> 0 <= j ->
  binary_round 53 1024 s (shl v j) (- j) = canon s v.
Proof.
  intros V J. pose proof (digits_bound v V) as D.
  unfold binary_round. rewrite digits_shl by lia.
  replace (Zpos (digits2_pos v) + j + - j) with (Zpos (digits2_pos v)) by lia.
  rewrite fexp_small by lia. unfold shl_align.
  destruct (Zpos (digits2_pos v) - 53 - - j) as [|n|n] eqn:N.
  - replace j with (53 - Zpos (digits2_pos v)) by lia.
    replace (- (53 - Zpos (digits2_pos v))) with (Zpos (digits2_pos v) - 53) by lia.
    now apply round_aux_canon.
  - (* the mantissa is shifted right by n bits, all of them zero *)
    unfold binary_round_aux, shr_fexp. cbn [Zdigits2 shr_record_of_loc].
    rewrite digits_shl by lia.
    replace (Zpos (digits2_pos v) + j + - j) with (Zpos (digits2_pos v)) by lia.
    rewrite fexp_small by lia. rewrite N. cbn [shr].
    rewrite iter_shr_1_shl by lia.
    cbn [shr_m loc_of_shr_record round_nearest_even].
    replace (j - Zpos n) with (53 - Zpos (digits2_pos v)) by lia.
    replace (- j + Zpos n) with (Zpos (digits2_pos v) - 53) by lia.
    cbn [Zdigits2 shr_record_of_loc].
    rewrite digits_shl by lia.
    replace (Zpos (digits2_pos v) + (53 - Zpos (digits2_pos v))
             + (Zpos (digits2_pos v) - 53)) with (Zpos (digits2_pos v)) by lia.
    rewrite fexp_small by lia. rewrite Z.sub_diag. cbn [shr shr_m].
    assert ((Zpos (digits2_pos v) - 53 <=? 1024 - 53) = true) as ->
      by (apply Z.leb_le; lia).
    reflexivity.
  - change (Pos.iter xO (shl v j) n) with (shl (shl v j) (Zpos n)).
    rewrite shl_shl by lia.
    replace (j + Zpos n) with (53 - Zpos (digits2_pos v)) by lia.
    now apply round_aux_canon.
Qed.

Lemma of_Z_pos (v : positive) : Zpos v < 2 ^ 53 -> JS.of_Z (Zpos v) = canon false v.
Proof.
  intros V. unfold JS.of_Z, binary_normalize, JS.prec, JS.emax.
  apply (round_scaled false v 0 V). lia.
Qed.

Lemma of_Z_neg (v : positive) : Zpos v < 2 ^ 53 -> JS.of_Z (Zneg v) = canon true v.
Proof.
  intros V. unfold JS.of_Z, binary_normalize, JS.prec, JS.emax.
  apply (round_scaled true v 0 V). lia.
Qed.

Lemma shl_align_fst (m : positive) (e e' : Z) :
  e' <= e -> fst (shl_align m e e') = shl m (e - e').
Proof.
  intros H. unfold shl_align.
  destruct (e' - e) as [|d|d] eqn:D; cbn [fst].
  - replace (e - e') with 0 by lia. reflexivity.
  - lia.
  - replace (e - e') with (Zpos d) by lia. reflexivity.
Qed.

Lemma cond_Zopp_mul (s : bool) (a b : Z) : cond_Zopp s (a * b) = cond_Zopp s a * b.
Proof. destruct s; cbn; lia. Qed.

(** The mantissa of a canonical form, aligned to the exponent [- j]. *)
Lemma aligned_mantissa (s : bool) (v : positive) (j : Z) :
  Zpos v < 2 ^ 53 ->
  53 - Zpos (digits2_pos v) <= j ->
  cond_Zopp s
    (Zpos (fst (shl_align (shl v (53 - Zpos (digits2_pos v)))
                  (Zpos (digits2_pos v) - 53) (- j))))
  = cond_Zopp s (Zpos v) * 2 ^ j.
Proof.
  intros V J. pose proof (digits_bound v V) as D.
  rewrite shl_align_fst by lia. rewrite shl_shl by lia.
  rewrite shl_mul by lia. rewrite cond_Zopp_mul. f_equal. f_equal. lia.
Qed.

Lemma normalize_scaled (z j : Z) :
  Z.abs z < 2 ^ 53 -> 0 <= j ->
  binary_normalize 53 1024 (z * 2 ^ j) (- j) false = JS.of_Z z.
Proof.
  intros B J. assert (0 < 2 ^ j) as Pj by (apply Z.pow_pos_nonneg; lia).
  destruct z as [|v|v].
  - reflexivity.
  - rewrite of_Z_pos by lia. rewrite <- (shl_mul v j J).
    cbn [binary_normalize]. apply round_scaled; lia.
  - rewrite of_Z_neg by lia.
    replace (Zneg v * 2 ^ j) with (Zneg (shl v j))
      by (rewrite <- Pos2Z.opp_pos, shl_mul by lia; lia).
    cbn [binary_normalize]. apply round_scaled; lia.
Qed.

Lemma of_Z_signed (z : Z) :
  z <> 0 -> Z.abs z < 2 ^ 53 ->
  exists s v, JS.of_Z z = canon s v /\ cond_Zopp s (Zpos v) = z /\ Zpos v < 2 ^ 53.
Proof.
  intros N B. destruct z as [|v|v]; [contradiction| |].
  - exists false, v. rewrite of_Z_pos by lia. cbn. repeat split; lia.
  - exists true, v. rewrite of_Z_neg by lia. cbn. repeat split; lia.
Qed.

(** The sum of two integers is exact when they and their sum are below 2^53
    in magnitude. *)
Lemma add_safe_integers (x y : Z) :
  Z.abs x < 2 ^ 53 -> Z.abs y < 2 ^ 53 -> Z.abs (x + y) < 2 ^ 53 ->
  JS.add (JS.of_Z x) (JS.of_Z y) = JS.of_Z (x + y).
Proof.
  intros X Y S.
  destruct (Z.eq_dec x 0) as [->|Nx].
  { cbn [Z.add]. change (JS.of_Z 0) with (S754_zero false).
    destruct (Z.eq_dec y 0) as [->|Ny]; [reflexivity|].
    destruct (of_Z_signed y Ny Y) as (sy & vy & -> & _). reflexivity. }
  destruct (Z.eq_dec y 0) as [->|Ny].
  { rewrite Z.add_0_r. change (JS.of_Z 0) with (S754_zero false).
    destruct (of_Z_signed x Nx X) as (sx & vx & -> & _). reflexivity. }
  destruct (of_Z_signed x Nx X) as (sx & vx & -> & Ex & Vx).
  destruct (of_Z_signed y Ny Y) as (sy & vy & -> & Ey & Vy).
  pose proof (digits_bound vx Vx) as Dx. pose proof (digits_bound vy Vy) as Dy.
  unfold JS.add, SFadd, canon, JS.prec, JS.emax.
  set (dx := Zpos (digits2_pos vx)) in *. set (dy := Zpos (digits2_pos vy)) in *.
  set (ez := Z.min (dx - 53) (dy - 53)).
  replace ez with (- (- ez)) by lia.
  unfold dx, dy. rewrite !aligned_mantissa by (fold dx dy; lia).
  rewrite Ex, Ey, <- Z.mul_add_distr_r.
  apply normalize_scaled; [assumption|]. fold dx dy. lia.
Qed.

Lemma integer_value_canon (s : bool) (v : positive) :
  Zpos v < 2 ^ 53 ->
  Sample.integer_value (canon s v) = Some (cond_Zopp s (Zpos v)).
Proof.
  intros V. pose proof (digits_bound v V) as D.
  unfold canon, Sample.integer_value.
  set (d := Zpos (digits2_pos v)) in *.
  assert ((if s then Z.neg (shl v (53 - d)) else Z.pos (shl v (53 - d)))
          = cond_Zopp s (Zpos v) * 2 ^ (53 - d)) as ->.
  { rewrite <- cond_Zopp_mul, <- shl_mul by lia. destruct s; reflexivity. }
  destruct (d - 53) as [|k|k] eqn:K; [| lia |].
  - replace (53 - d) with 0 by lia. f_equal. lia.
  - replace (53 - d) with (Zpos k) by lia.
    assert (0 < 2 ^ Zpos k) by (apply Z.pow_pos_nonneg; lia).
    rewrite Z.mod_mul by lia. cbn [Z.eqb]. rewrite Z.div_mul by lia. reflexivity.
Qed.

Lemma integer_value_of_Z (z : Z) :
  Z.abs z < 2 ^ 53 -> Sample.integer_value (JS.of_Z z) = Some z.
Proof.
  intros B. destruct (Z.eq_dec z 0) as [->|N]; [reflexivity|].
  destruct (of_Z_signed z N B) as (s & v & -> & <- & V).
  now apply integer_value_canon.
Qed.

Lemma Sample_prints_safe_integers (z : Z) :
  Z.abs z < 2 ^ 53 -> NumberToString Sample.platform (JS.of_Z z) = JS.Z_to_string z.
Proof.
  intros B. cbn [NumberToString Sample.platform]. unfold Sample.NumberToString.
  rewrite (integer_value_of_Z z B).
  apply Z.ltb_lt in B. rewrite B.
  destruct (Z.eq_dec z 0) as [->|N]; [reflexivity|].
  destruct (of_Z_signed z N (proj1 (Z.ltb_lt _ _) B)) as (s & v & -> & _). reflexivity.
Qed.

(** X15: for integers [x] and [y] that, with their sum, are below 2^53 in
    magnitude, [calculate_sum] adds without rounding: the number it prints
    is the one of [x + y], and on a platform that prints such integers in
    decimal, as [Number::toString] does, the text is the decimal of
    [x + y]. *)
Theorem calculate_sum_safe_integers (P : Platform) (x y : Z) :
  Z.abs x < 2 ^ 53 -> Z.abs y < 2 ^ 53 -> Z.abs (x + y) < 2 ^ 53 ->
  (forall z, Z.abs z < 2 ^ 53 -> NumberToString P (JS.of_Z z) = JS.Z_to_string z) ->
  Calculator.calculate_sum P
    {| Calculator.a := JS.of_Z x; Calculator.b := JS.of_Z y |}
  = text_result (JS.Z_to_string (x + y)) None
  /\ JS.add (JS.of_Z x) (JS.of_Z y) = JS.of_Z (x + y).
Proof.
  intros X Y S N. pose proof (add_safe_integers x y X Y S) as E.
  split; [|exact E].
  unfold Calculator.calculate_sum, text_result. cbn [Calculator.a Calculator.b].
  now rewrite E, N.
Qed.

Lemma calculate_sum_safe_integers_witness :
  Calculator.calculate_sum Sample.platform
    {| Calculator.a := JS.of_Z 40; Calculator.b := JS.of_Z 2 |}
  = text_result "42" None
  /\ JS.add (JS.of_Z 40) (JS.of_Z 2) = JS.of_Z 42.
Proof.
  apply (calculate_sum_safe_integers Sample.platform 40 2).
  - reflexivity.
  - reflexivity.
  - reflexivity.
  - apply Sample_prints_safe_integers.
Defined.

(** ** Properties of [calculate_sum] *)

(** C10, as amended: for all numbers [a] and [b] the result of
    [calculate_sum] has exactly one content item, of type "text", and no
    [isError]; its text is [String] of the binary64 sum of [a] and [b], the
    IEEE 754 addition that rounds to nearest, ties to even; swapping [a] and
    [b] gives the same result. For integers [x] and [y] that, with their
    sum, are below 2^53 in magnitude, this sum is exact, and on a platform
    whose [String] prints such integers in decimal, as [Number::toString]
    does, the text is the decimal representation of [x + y]. Beyond that the
    text need not be the one of [a + b]: see [sum_not_always_decimal]. *)
Theorem calculate_sum_binary64 (P : Platform) :
  (forall a b : JS.number,
      Calculator.calculate_sum P {| Calculator.a := a; Calculator.b := b |}
      = {| content := [ {| type := "text";
                           text := NumberToString P (SFadd 53 1024 a b) |} ];
           isError := None |}
      /\ Calculator.calculate_sum P {| Calculator.a := b; Calculator.b := a |}
         = Calculator.calculate_sum P {| Calculator.a := a; Calculator.b := b |})
  /\ (forall x y : Z,
        Z.abs x < 2 ^ 53 -> Z.abs y < 2 ^ 53 -> Z.abs (x + y) < 2 ^ 53 ->
        SFadd 53 1024 (JS.of_Z x) (JS.of_Z y) = JS.of_Z (x + y)
        /\ ((forall z : Z,
                Z.abs z < 2 ^ 53 ->
                NumberToString P (JS.of_Z z) = JS.Z_to_string z) ->
            Calculator.calculate_sum P
              {| Calculator.a := JS.of_Z x; Calculator.b := JS.of_Z y |}
            = {| content := [ {| type := "text";
                                 text := JS.Z_to_string (x + y) |} ];
                 isError := None |})).
Proof.
  split.
  - intros a b. split; [reflexivity|].
    unfold Calculator.calculate_sum. cbn [Calculator.a Calculator.b].
    now rewrite (add_comm b a).
  - intros x y X Y S. pose proof (add_safe_integers x y X Y S) as E.
    split; [exact E|]. intros N.
    unfold Calculator.calculate_sum. cbn [Calculator.a Calculator.b].
    now rewrite E, N.
Qed.

Lemma calculate_sum_binary64_witness :
  Calculator.calculate_sum Sample.platform
    {| Calculator.a := JS.of_Z 1234; Calculator.b := JS.of_Z (-234) |}
  = {| content := [ {| type := "text"; text := "1000" |} ]; isError := None |}.
Proof.
  apply (proj2 (calculate_sum_binary64 Sample.platform) 1234 (-234)).
  - reflexivity.
  - reflexivity.
  - reflexivity.
  - apply Sample_prints_safe_integers.
Defined.

(** C10, as stated, fails: the text is not the decimal representation of
    [a + b] for all numbers. The numbers 2^53 and 1 are both integers that
    binary64 holds exactly, and their binary64 sum is 2^53 again, so
    [calculate_sum] returns for 2^53 and 1 the result it returns for 2^53
    and 0. And the sum of [Infinity] and [-Infinity], two numbers that the
    schema accepts, is NaN: the text is "NaN". *)
Lemma sum_not_always_decimal :
  Sample.integer_value (JS.of_Z (2 ^ 53)) = Some (2 ^ 53)
  /\ Sample.integer_value (JS.of_Z 1) = Some 1
  /\ Sample.integer_value (JS.add (JS.of_Z (2 ^ 53)) (JS.of_Z 1)) = Some (2 ^ 53)
  /\ Calculator.calculate_sum Sample.platform
       {| Calculator.a := JS.of_Z (2 ^ 53); Calculator.b := JS.of_Z 1 |}
     = Calculator.calculate_sum Sample.platform
         {| Calculator.a := JS.of_Z (2 ^ 53); Calculator.b := JS.of_Z 0 |}
  /\ Calculator.calculate_sum Sample.platform
       {| Calculator.a := S754_infinity false; Calculator.b := S754_infinity true |}
     = {| content := [ {| type := "text"; text := "NaN" |} ]; isError := None |}.
Proof.
  repeat split; vm_compute; reflexivity.
Qed.
